(** * Server-availability reconnection core of [src/App.jsx]

    A shallow embedding of the asynchronous functions of the [App]
    component ([sendKeepAlive], [checkServerHealth], [triggerWakeUp],
    [wakeUpServer], [initSession], [sendMessage], [manualWakeUp]) and the
    properties of the availability state machine they implement.

    React state variables are fields of one store, [World]; every
    [setX(...)] is an update of that store, in program order.  A function
    of the component closes over the state variables of the render that
    created it: that snapshot is an explicit argument ([r : World], of
    which only the state variables are read).  Each [await fetch(...)] is
    answered by the environment with a [FetchResult]; what the program
    does to the outside (requests, timers, console) is appended to
    [trace]. *)

From Stdlib Require Import ZArith List String Ascii Bool Arith Lia.
From Stdlib Require Import DecimalString.
Import ListNotations.
Open Scope string_scope.

Set Implicit Arguments.

(** ** JavaScript values the component handles *)

(** [useState('checking')]: the four strings ever passed to
    [setServerStatus]. *)
Inductive ServerStatus := checking | waking | ready | error.

Definition ServerStatus_eqb (a b : ServerStatus) : bool :=
  match a, b with
  | checking, checking | waking, waking | ready, ready | error, error => true
  | _, _ => false
  end.

(** An [Error] object, as far as the code looks at it: [error.name] and
    [error.message]. *)
Record JsError := mkError { name : string; message : string }.

(** A string-valued slot that may also hold [null] or [undefined]
    ([sessionId], [data.sessionId]). *)
Inductive JsId := IdNull | IdUndefined | IdStr (s : string).

(** JavaScript truthiness of such a slot: only a non-empty string. *)
Definition truthy_id (i : JsId) : bool :=
  match i with
  | IdStr s => negb (String.eqb s "")
  | _ => false
  end.

(** [a || b] on an optional string property and a string literal. *)
Definition or_else (o : option string) (d : string) : string :=
  match o with
  | Some s => if String.eqb s "" then d else s
  | None => d
  end.

(** [s.includes(sub)]. *)
Definition includes (s sub : string) : bool :=
  match String.index 0 sub s with
  | Some _ => true
  | None => false
  end.

(** A string of the model is the UTF-8 encoding of the JavaScript
    string.  The white space removed by [String.prototype.trim] is
    WhiteSpace and LineTerminator of ECMAScript.  In one byte: tab, line
    feed, vertical tab, form feed, carriage return, space. *)
Definition is_space (c : ascii) : bool :=
  let n := nat_of_ascii c in
  (n =? 32)%nat || ((9 <=? n)%nat && (n <=? 13)%nat).

(** In two bytes: U+00A0 (C2 A0). *)
Definition is_space2 (a b : ascii) : bool :=
  (nat_of_ascii a =? 194)%nat && (nat_of_ascii b =? 160)%nat.

(** In three bytes: U+1680 (E1 9A 80), U+2000 to U+200A (E2 80 80 to
    E2 80 8A), U+2028 and U+2029 (E2 80 A8, E2 80 A9), U+202F
    (E2 80 AF), U+205F (E2 81 9F), U+3000 (E3 80 80) and U+FEFF
    (EF BB BF). *)
Definition is_space3 (a b c : ascii) : bool :=
  let x := nat_of_ascii a in
  let y := nat_of_ascii b in
  let z := nat_of_ascii c in
  ((x =? 225) && (y =? 154) && (z =? 128))%nat
  || ((x =? 226) && (y =? 128)
      && (((128 <=? z) && (z <=? 138)) || (z =? 168) || (z =? 169)
          || (z =? 175)))%nat
  || ((x =? 226) && (y =? 129) && (z =? 159))%nat
  || ((x =? 227) && (y =? 128) && (z =? 128))%nat
  || ((x =? 239) && (y =? 187) && (z =? 191))%nat.

(** The rest of [s] after one leading white-space character, when [s]
    starts with one. *)
Definition ws_strip (s : string) : option string :=
  match s with
  | String a s1 =>
      if is_space a then Some s1
      else
        match s1 with
        | String b s2 =>
            if is_space2 a b then Some s2
            else
              match s2 with
              | String c s3 => if is_space3 a b c then Some s3 else None
              | EmptyString => None
              end
        | EmptyString => None
        end
  | EmptyString => None
  end.

(** At most [fuel] leading white-space characters are removed. *)
Fixpoint strip_leading (fuel : nat) (s : string) : string :=
  match fuel with
  | O => s
  | S fuel' =>
      match ws_strip s with
      | Some rest => strip_leading fuel' rest
      | None => s
      end
  end.

(** [s.trimStart()]: a string has no more characters than bytes. *)
Definition trim_start (s : string) : string :=
  strip_leading (String.length s) s.

(** Only white space (the empty string included). *)
Definition blank (s : string) : bool := String.eqb (trim_start s) "".

(** [s.trimEnd()]: [s] is cut where what follows is only white space. *)
Fixpoint trim_end (s : string) : string :=
  match s with
  | EmptyString => EmptyString
  | String c s' => if blank s then EmptyString else String c (trim_end s')
  end.

(** [s.trim()]. *)
Definition trim (s : string) : string := trim_end (trim_start s).

(** Decimal rendering of a counter inside a template literal. *)
Definition string_of_nat (n : nat) : string :=
  NilZero.string_of_uint (Nat.to_uint n).

(** ** The network as the component sees it *)

(** The parsed body of the responses the code reads.  Properties are
    strings or absent; [data.sessionId] may also be [null].  Properties
    of other JSON types are outside the model. *)
Record Data := mkData {
  reply : option string;
  d_responseTime : option string;
  d_sessionId : JsId;
  d_error : option string
}.

(** What [await response.json()] finds: a body that is not JSON (the
    promise rejects with a [SyntaxError] whose message is the engine's),
    or a value whose properties can be read (an object; a property that
    is not there reads as [undefined]).  The JSON value [null], on which
    reading a property throws inside a queued state updater, is outside
    the model. *)
Inductive Body :=
| NotJson (msg : string)
| JsonObj (d : Data).

Record Response := mkResponse { status : Z; body : Body }.

(** [response.ok]: status in the range 200-299. *)
Definition ok (r : Response) : bool :=
  (200 <=? status r)%Z && (status r <=? 299)%Z.

(** How an [await fetch(...)] settles: the promise rejects (network
    failure, or [AbortError] when the attached signal aborts), or it
    resolves with a response of any status. *)
Inductive FetchResult :=
| Rejected (e : JsError)
| Resolved (r : Response).

Inductive Method := GET | POST.

(** Body of the chat request, [JSON.stringify({ message, sessionId })]. *)
Record ChatPayload := mkPayload { p_message : string; p_sessionId : JsId }.

(** One call of [fetch]: the URL, the options, and the delay after
    which the [AbortController] given as [signal] aborts ([None]: the
    call passes no [signal]). *)
Record Request := mkRequest {
  url : string;
  method : Method;
  headers : list (string * string);
  payload : option ChatPayload;
  signal : option Z
}.

(** Configuration read from [import.meta.env], lines 23-24. *)
Record Config := mkConfig { API_URL : string; WAKE_TOKEN : string }.

Definition default_config : Config :=
  {| API_URL := "https://ai-agent-backend-1-g21l.onrender.com";
     WAKE_TOKEN := "your-secret-token-here" |}.

(** ** The store and the observable trace *)

Inductive Sender := user | ai.

Record Message := mkMessage {
  sender : Sender;
  text : option string;
  timestamp : string;
  responseTime : option string
}.

Inductive Event :=
| EvFetch (q : Request)               (* a call of [fetch] *)
| EvSleep (ms : Z)                    (* an awaited [setTimeout(resolve, ms)] *)
| EvLog (msg : string) (arg : string) (* [console.log] *)
| EvError (msg : string) (e : JsError) (* [console.error] *).

(** A suspended or finished invocation of [wakeUpServer]: the value of
    its local [retries] at the [await] it waits on. *)
Inductive Cycle :=
| AwaitProbe (retries : nat)   (* at [await fetch(.../api/health)], line 180 *)
| AwaitDelay (retries : nat)   (* at [await new Promise(...)], line 214 *)
| Returned (v : bool).

Definition in_flight (c : Cycle) : bool :=
  match c with
  | Returned _ => false
  | _ => true
  end.

Record World := mkWorld {
  serverStatus : ServerStatus;
  messages : list Message;
  input : string;
  loading : bool;
  sessionId : JsId;
  typingIndicator : bool;
  wakeAttempts : nat;
  connectionError : option string;
  trace : list Event;
  cycles : list Cycle
}.

(** The state of a freshly mounted component, lines 5-15. *)
Definition initial : World :=
  {| serverStatus := checking; messages := []; input := ""; loading := false;
     sessionId := IdNull; typingIndicator := false; wakeAttempts := 0;
     connectionError := None; trace := []; cycles := [] |}.

(** ** Computations: a store, and exceptions *)

(** How a block of statements completes. *)
Inductive Completion (A : Type) :=
| Normal (a : A)
| Throw (e : JsError).

Arguments Throw {A} e.

Definition M (A : Type) : Type := World -> Completion A * World.

Definition ret {A} (a : A) : M A := fun w => (Normal a, w).

Definition bind {A B} (m : M A) (k : A -> M B) : M B :=
  fun w =>
    match m w with
    | (Normal a, w') => k a w'
    | (Throw e, w') => (Throw e, w')
    end.

Definition throw {A} (e : JsError) : M A := fun w => (Throw e, w).

(** [try { body } catch (e) { handler }]. *)
Definition try_catch {A} (body : M A) (handler : JsError -> M A) : M A :=
  fun w =>
    match body w with
    | (Normal a, w') => (Normal a, w')
    | (Throw e, w') => handler e w'
    end.

(** [try { body } finally { fin }]: [fin] runs on both exits and the
    completion of [body] stands unless [fin] itself throws. *)
Definition try_finally {A} (body : M A) (fin : M unit) : M A :=
  fun w =>
    match body w with
    | (c, w') =>
        match fin w' with
        | (Normal _, w'') => (c, w'')
        | (Throw e, w'') => (Throw e, w'')
        end
    end.

Declare Scope js_scope.
Delimit Scope js_scope with js.
Notation "x <- m ;; k" := (bind m (fun x => k))
  (at level 61, m at next level, right associativity) : js_scope.
Notation "m ;; k" := (bind m (fun _ => k))
  (at level 61, right associativity) : js_scope.
Open Scope js_scope.

(** The store after the computation, and its completion. *)
Definition exec {A} (m : M A) (w : World) : World := snd (m w).
Definition result {A} (m : M A) (w : World) : Completion A := fst (m w).

(** *** State setters *)

Definition setServerStatus (v : ServerStatus) : M unit := fun w =>
  (Normal tt,
   {| serverStatus := v; messages := messages w; input := input w;
      loading := loading w; sessionId := sessionId w;
      typingIndicator := typingIndicator w; wakeAttempts := wakeAttempts w;
      connectionError := connectionError w; trace := trace w;
      cycles := cycles w |}).

Definition setMessages (f : list Message -> list Message) : M unit := fun w =>
  (Normal tt,
   {| serverStatus := serverStatus w; messages := f (messages w);
      input := input w; loading := loading w; sessionId := sessionId w;
      typingIndicator := typingIndicator w; wakeAttempts := wakeAttempts w;
      connectionError := connectionError w; trace := trace w;
      cycles := cycles w |}).

Definition setInput (v : string) : M unit := fun w =>
  (Normal tt,
   {| serverStatus := serverStatus w; messages := messages w; input := v;
      loading := loading w; sessionId := sessionId w;
      typingIndicator := typingIndicator w; wakeAttempts := wakeAttempts w;
      connectionError := connectionError w; trace := trace w;
      cycles := cycles w |}).

Definition setLoading (v : bool) : M unit := fun w =>
  (Normal tt,
   {| serverStatus := serverStatus w; messages := messages w;
      input := input w; loading := v; sessionId := sessionId w;
      typingIndicator := typingIndicator w; wakeAttempts := wakeAttempts w;
      connectionError := connectionError w; trace := trace w;
      cycles := cycles w |}).

Definition setSessionId (v : JsId) : M unit := fun w =>
  (Normal tt,
   {| serverStatus := serverStatus w; messages := messages w;
      input := input w; loading := loading w; sessionId := v;
      typingIndicator := typingIndicator w; wakeAttempts := wakeAttempts w;
      connectionError := connectionError w; trace := trace w;
      cycles := cycles w |}).

Definition setTypingIndicator (v : bool) : M unit := fun w =>
  (Normal tt,
   {| serverStatus := serverStatus w; messages := messages w;
      input := input w; loading := loading w; sessionId := sessionId w;
      typingIndicator := v; wakeAttempts := wakeAttempts w;
      connectionError := connectionError w; trace := trace w;
      cycles := cycles w |}).

Definition setWakeAttempts (f : nat -> nat) : M unit := fun w =>
  (Normal tt,
   {| serverStatus := serverStatus w; messages := messages w;
      input := input w; loading := loading w; sessionId := sessionId w;
      typingIndicator := typingIndicator w;
      wakeAttempts := f (wakeAttempts w);
      connectionError := connectionError w; trace := trace w;
      cycles := cycles w |}).

Definition setConnectionError (v : option string) : M unit := fun w =>
  (Normal tt,
   {| serverStatus := serverStatus w; messages := messages w;
      input := input w; loading := loading w; sessionId := sessionId w;
      typingIndicator := typingIndicator w; wakeAttempts := wakeAttempts w;
      connectionError := v; trace := trace w; cycles := cycles w |}).

(** Something the outside can observe happens. *)
Definition emit (e : Event) : M unit := fun w =>
  (Normal tt,
   {| serverStatus := serverStatus w; messages := messages w;
      input := input w; loading := loading w; sessionId := sessionId w;
      typingIndicator := typingIndicator w; wakeAttempts := wakeAttempts w;
      connectionError := connectionError w; trace := (trace w ++ [e])%list;
      cycles := cycles w |}).

(** The in-flight invocations of [wakeUpServer] are replaced. *)
Definition setCycles (f : list Cycle -> list Cycle) : M unit := fun w =>
  (Normal tt,
   {| serverStatus := serverStatus w; messages := messages w;
      input := input w; loading := loading w; sessionId := sessionId w;
      typingIndicator := typingIndicator w; wakeAttempts := wakeAttempts w;
      connectionError := connectionError w; trace := trace w;
      cycles := f (cycles w) |}).

(** *** Network and console primitives *)

(** The awaited promise of a [fetch] settles. *)
Definition settle (o : FetchResult) : M Response :=
  match o with
  | Rejected e => throw e
  | Resolved r => ret r
  end.

(** [await fetch(q)] answered with [o]. *)
Definition fetch (q : Request) (o : FetchResult) : M Response :=
  emit (EvFetch q) ;; settle o.

(** [await response.json()], for a body that has arrived; a body whose
    reading never completes is the matter of [Arrivals] below. *)
Definition json (r : Response) : M Data :=
  match body r with
  | NotJson msg => throw {| name := "SyntaxError"; message := msg |}
  | JsonObj d => ret d
  end.

Definition console_log (msg arg : string) : M unit := emit (EvLog msg arg).
Definition console_error (msg : string) (e : JsError) : M unit :=
  emit (EvError msg e).

(** ** The calls of [fetch] in the component *)

Section Requests.
Variable cfg : Config.

(** Line 58. *)
Definition keep_alive_request : Request :=
  {| url := API_URL cfg ++ "/api/keep-alive"; method := POST;
     headers := [("Content-Type", "application/json")];
     payload := None; signal := Some 5000%Z |}.

(** Line 102, in [checkServerHealth]. *)
Definition health_check_request : Request :=
  {| url := API_URL cfg ++ "/api/health"; method := GET;
     headers := [("Cache-Control", "no-cache")];
     payload := None; signal := Some 5000%Z |}.

(** Line 134. *)
Definition wake_request : Request :=
  {| url := API_URL cfg ++ "/api/wake"; method := GET; headers := [];
     payload := None; signal := Some 10000%Z |}.

(** Lines 150-153: the options are [{ method: 'GET' }] alone. *)
Definition trigger_wake_request : Request :=
  {| url := API_URL cfg ++ "/api/trigger-wake?token=" ++ WAKE_TOKEN cfg;
     method := GET; headers := []; payload := None; signal := None |}.

(** Line 180, in [wakeUpServer]. *)
Definition health_probe_request : Request :=
  {| url := API_URL cfg ++ "/api/health"; method := GET;
     headers := [("Cache-Control", "no-cache")];
     payload := None; signal := Some 8000%Z |}.

(** Line 245. *)
Definition session_init_request : Request :=
  {| url := API_URL cfg ++ "/api/session/init"; method := POST;
     headers := [("Content-Type", "application/json")];
     payload := None; signal := Some 10000%Z |}.

(** Line 282. *)
Definition chat_request (currentInput : string) (sid : JsId) : Request :=
  {| url := API_URL cfg ++ "/api/chat"; method := POST;
     headers := [("Content-Type", "application/json")];
     payload := Some {| p_message := currentInput; p_sessionId := sid |};
     signal := Some 30000%Z |}.

(** Line 358, in [loadRecentLeads]; no [method] is given, so GET. *)
Definition leads_request : Request :=
  {| url := API_URL cfg ++ "/api/leads/recent"; method := GET;
     headers := []; payload := None; signal := Some 10000%Z |}.
End Requests.

(** ** Messages put into the chat *)

Definition health_welcome (now : string) : Message :=
  {| sender := ai; text := Some "👋 Server wapas aa gaya! Kaise help karu?";
     timestamp := now; responseTime := None |}.

Definition welcome (now : string) : Message :=
  {| sender := ai;
     text := Some "👋 Namaste! Main aapka AI Agent hu. Kaise help kar sakta hu?";
     timestamp := now; responseTime := None |}.

Definition sleeping_notice (now : string) : Message :=
  {| sender := ai;
     text := Some "😴 Server so raha hai. Wake up kar raha hu... 30 sec wait karo.";
     timestamp := now; responseTime := None |}.

Definition backend_error (reported : option string) (now : string) : Message :=
  {| sender := ai; text := Some ("❌ " ++ or_else reported "Kuch error hua");
     timestamp := now; responseTime := None |}.

Definition connection_error (now : string) : Message :=
  {| sender := ai; text := Some "❌ Connection error. Internet check karo.";
     timestamp := now; responseTime := None |}.

(** ** The asynchronous functions *)

Definition maxRetries : nat := 5.
Definition baseDelay : Z := 3000.

(** [baseDelay * Math.pow(2, retries - 1)], line 212. *)
Definition waitTime (retries : nat) : Z :=
  (baseDelay * 2 ^ Z.of_nat (retries - 1))%Z.

(** Where control goes when one turn of the [while] of [wakeUpServer]
    leaves its [try]/[catch]. *)
Inductive Control :=
| Return (v : bool)          (* [return true], line 197 *)
| Sleep (retries : nat)      (* the [await] of line 214 *)
| Again (retries : nat)      (* the end of the loop body *).

Section Component.
Variable cfg : Config.

(** [triggerWakeUp], lines 128-164.  [primary] and [fallback] are how
    the two [fetch]es settle; the second is issued only inside the
    [catch].  The result of each [try] block is [Some v] for [return v]
    and [None] when control falls out of it.  Both requests are taken
    as settled here; a fallback that stays pending is the matter of
    [drive_arrivals] below. *)
Definition triggerWakeUp (primary fallback : FetchResult) : M bool :=
  r <- try_catch
         (wakeResponse <- fetch (wake_request cfg) primary ;;
          if ok wakeResponse then
            console_log "Wake signal sent successfully" "" ;;
            ret (Some true)
          else ret None)
         (fun error =>
            console_log "Wake endpoint failed:" (message error) ;;
            try_catch
              (triggerResponse <- fetch (trigger_wake_request cfg) fallback ;;
               if ok triggerResponse then
                 console_log "Trigger wake successful" "" ;;
                 ret (Some true)
               else ret None)
              (fun e =>
                 console_log "Trigger wake failed:" (message e) ;;
                 ret None)) ;;
  match r with
  | Some v => ret v
  | None => ret false
  end.

(** The head of the [while] of [wakeUpServer], line 175, up to the next
    [await]: either the probe is issued, or the loop is left and lines
    219-221 run. *)
Definition loop_head (retries : nat) : M Cycle :=
  if (retries <? maxRetries)%nat then
    emit (EvFetch (health_probe_request cfg)) ;;
    ret (AwaitProbe retries)
  else
    setServerStatus error ;;
    setConnectionError (Some "Server wake failed after multiple attempts") ;;
    ret (Returned false).

(** [wakeUpServer], lines 167-175, up to its first [await]: this part
    runs inside the caller. *)
Definition wakeUpServer_start : M Cycle :=
  setConnectionError None ;;
  setWakeAttempts (fun prev => prev + 1)%nat ;;
  loop_head 0.

(** The [catch] block of the loop, lines 199-216, entered with the
    local [retries] and the error caught.  [primary] and [fallback]
    answer [triggerWakeUp] should it be called. *)
Definition wake_catch (retries : nat) (primary fallback : FetchResult)
    (error : JsError) : M Control :=
  console_log ("Wake attempt " ++ string_of_nat (retries + 1) ++ " failed:")
              (message error) ;;
  (if (retries =? 0)%nat then
     setServerStatus waking ;;
     _ <- triggerWakeUp primary fallback ;;
     ret tt
   else ret tt) ;;
  let retries := S retries in
  if (retries <? maxRetries)%nat then
    setConnectionError
      (Some ("Wake attempt " ++ string_of_nat retries ++ "/"
             ++ string_of_nat maxRetries ++ "...")) ;;
    emit (EvSleep (waitTime retries)) ;;
    ret (Sleep retries)
  else ret (Again retries).

(** One turn of the loop body, lines 176-216, from the moment the probe
    settles as [o]; [now] is the clock. *)
Definition loop_body (retries : nat) (o primary fallback : FetchResult)
    (now : string) : M Control :=
  try_catch
    (healthRes <- settle o ;;
     if ok healthRes then
       _ <- json healthRes ;;
       setServerStatus ready ;;
       setWakeAttempts (fun _ => 0%nat) ;;
       setMessages (fun _ => [welcome now]) ;;
       ret (Return true)
     else ret (Again retries))
    (wake_catch retries primary fallback).

(** A suspended [wakeUpServer] is resumed: a pending probe settles as
    [o], or a pending timer fires ([o] is then not looked at). *)
Definition resume (c : Cycle) (o primary fallback : FetchResult)
    (now : string) : M Cycle :=
  match c with
  | AwaitProbe retries =>
      k <- loop_body retries o primary fallback now ;;
      match k with
      | Return v => ret (Returned v)
      | Sleep retries' => ret (AwaitDelay retries')
      | Again retries' => loop_head retries'
      end
  | AwaitDelay retries => loop_head retries
  | Returned v => ret (Returned v)
  end.

(** A call [wakeUpServer()] whose promise is not awaited: the part up
    to the first [await] runs now and the rest stays in flight. *)
Definition wakeUpServer_unawaited : M unit :=
  c <- wakeUpServer_start ;;
  setCycles (fun cs => (cs ++ [c])%list).

(** [sendKeepAlive], lines 51-74.  [r] is the render the callback was
    created in; [o] settles the ping. *)
Definition sendKeepAlive (r : World) (o : FetchResult) : M unit :=
  if negb (ServerStatus_eqb (serverStatus r) ready) then ret tt
  else
    try_catch
      (_ <- fetch (keep_alive_request cfg) o ;;
       console_log "❤️ Keep-alive sent" "")
      (fun error =>
         console_log "Keep-alive failed (server might be sleeping):"
                     (message error) ;;
         if ServerStatus_eqb (serverStatus r) ready then
           setServerStatus checking ;;
           wakeUpServer_unawaited
         else ret tt).

(** [checkServerHealth], lines 97-125. *)
Definition checkServerHealth (r : World) (o : FetchResult) (now : string)
    : M bool :=
  v <- try_catch
         (response <- fetch (health_check_request cfg) o ;;
          if ok response then
            (if negb (ServerStatus_eqb (serverStatus r) ready) then
               setServerStatus ready ;;
               setMessages (fun _ => [health_welcome now])
             else ret tt) ;;
            ret (Some true)
          else ret None)
         (fun error =>
            console_log "Health check failed:" (message error) ;;
            ret None) ;;
  match v with
  | Some b => ret b
  | None => ret false
  end.

(** [initSession], lines 238-258, run by the effect on [serverStatus]. *)
Definition initSession (r : World) (o : FetchResult) : M unit :=
  if negb (ServerStatus_eqb (serverStatus r) ready) then ret tt
  else
    try_catch
      (response <- fetch (session_init_request cfg) o ;;
       data <- json response ;;
       setSessionId (d_sessionId data))
      (fun error => console_error "Session init error:" error).

(** [sendMessage], lines 263-351.  [t_sent] and [t_reply] are the
    clock when the user message and the answer are built. *)
Definition sendMessage (r : World) (o : FetchResult)
    (t_sent t_reply : string) : M unit :=
  if String.eqb (trim (input r)) ""
     || negb (ServerStatus_eqb (serverStatus r) ready)
     || loading r
  then ret tt
  else
    let userMessage :=
      {| sender := user; text := Some (trim (input r));
         timestamp := t_sent; responseTime := None |} in
    setMessages (fun prev => (prev ++ [userMessage])%list) ;;
    let currentInput := trim (input r) in
    setInput "" ;;
    setLoading true ;;
    setTypingIndicator true ;;
    try_finally
      (try_catch
         (response <- fetch (chat_request cfg currentInput (sessionId r)) o ;;
          data <- json response ;;
          setTypingIndicator false ;;
          if ok response then
            setMessages (fun prev => (prev ++
              [{| sender := ai; text := reply data; timestamp := t_reply;
                  responseTime := d_responseTime data |}])%list) ;;
            if truthy_id (d_sessionId data) then
              setSessionId (d_sessionId data)
            else ret tt
          else
            if (status response =? 503)%Z || (status response =? 504)%Z then
              setServerStatus waking ;;
              setMessages (fun prev => (prev ++ [sleeping_notice t_reply])%list) ;;
              wakeUpServer_unawaited
            else
              setMessages (fun prev => (prev ++
                [backend_error (d_error data) t_reply])%list))
         (fun error =>
            setTypingIndicator false ;;
            if String.eqb (name error) "AbortError"
               || includes (message error) "Failed to fetch" then
              setServerStatus waking ;;
              setMessages (fun prev => (prev ++ [sleeping_notice t_reply])%list) ;;
              wakeUpServer_unawaited
            else
              console_error "Fetch error:" error ;;
              setMessages (fun prev => (prev ++ [connection_error t_reply])%list)))
      (setLoading false).

(** [manualWakeUp], lines 379-382. *)
Definition manualWakeUp : M unit :=
  setServerStatus waking ;;
  wakeUpServer_unawaited.

(** The mount effect, lines 225-226. *)
Definition mount : M unit := wakeUpServer_unawaited.
End Component.

(** ** Running one reconnection cycle to its end *)

(** What answers one invocation of [wakeUpServer]: [probe n] settles the
    [n]-th health probe it issues (from 0), [primary] and [fallback]
    settle the two requests of [triggerWakeUp], [now] is the clock when
    the welcome message is built. *)
Record Net := mkNet {
  probe : nat -> FetchResult;
  primary : FetchResult;
  fallback : FetchResult;
  now : string
}.

(** Resumes the cycle until it returns.  [fuel] bounds the number of
    resumptions (settled probes and fired timers); [n] counts the probes
    settled so far. *)
Fixpoint drive (cfg : Config) (net : Net) (fuel n : nat) (c : Cycle)
    (w : World) : option (Completion bool * World) :=
  match c with
  | Returned v => Some (Normal v, w)
  | _ =>
      match fuel with
      | O => None
      | S fuel' =>
          match resume cfg c (probe net n) (primary net) (fallback net)
                       (now net) w with
          | (Normal c', w') =>
              drive cfg net fuel'
                    (match c with AwaitProbe _ => S n | _ => n end) c' w'
          | (Throw e, w') => Some (Throw e, w')
          end
      end
  end.

(** [await wakeUpServer()] as a whole, lines 167-222. *)
Definition wakeUpServer (cfg : Config) (net : Net) (fuel : nat) (w : World)
    : option (Completion bool * World) :=
  match wakeUpServer_start cfg w with
  | (Normal c, w') => drive cfg net fuel 0 c w'
  | (Throw e, w') => Some (Throw e, w')
  end.

(** The event loop resumes the [i]-th invocation of [wakeUpServer] in
    flight. *)
Fixpoint replace_nth (i : nat) (c : Cycle) (cs : list Cycle) : list Cycle :=
  match cs, i with
  | [], _ => []
  | _ :: cs', O => c :: cs'
  | c0 :: cs', S i' => c0 :: replace_nth i' c cs'
  end.

Definition resume_nth (cfg : Config) (i : nat) (o p f : FetchResult)
    (t : string) : M unit :=
  fun w =>
    match nth_error (cycles w) i with
    | Some c =>
        (c' <- resume cfg c o p f t ;; setCycles (replace_nth i c')) w
    | None => (Normal tt, w)
    end.

(** The number of invocations of [wakeUpServer] that have not returned. *)
Definition cycles_in_flight (w : World) : nat :=
  List.length (filter in_flight (cycles w)).

(** ** Reading the trace *)

Definition Request_eq_dec (a b : Request) : {a = b} + {a <> b}.
Proof.
  repeat decide equality; try apply string_dec.
Defined.

Arguments Request_eq_dec : simpl never.

(** The requests, in the order they were issued. *)
Definition requests (t : list Event) : list Request :=
  flat_map (fun e => match e with EvFetch q => [q] | _ => [] end) t.

(** The awaited delays, in order. *)
Definition delays (t : list Event) : list Z :=
  flat_map (fun e => match e with EvSleep ms => [ms] | _ => [] end) t.

(** How often [q] was requested. *)
Definition requested (q : Request) (t : list Event) : nat :=
  count_occ Request_eq_dec (requests t) q.

(** Probes of [wakeUpServer] and awaited delays, interleaved as they
    happened. *)
Inductive Tick := Probe | Delay (ms : Z).

Definition ticks (cfg : Config) (t : list Event) : list Tick :=
  flat_map (fun e =>
              match e with
              | EvFetch q =>
                  if Request_eq_dec q (health_probe_request cfg)
                  then [Probe] else []
              | EvSleep ms => [Delay ms]
              | _ => []
              end) t.

(** The three ways a probe of [wakeUpServer] can go: the [try] block
    returns (a 2xx response with a JSON body), it throws (a rejected
    [fetch], or a 2xx response whose body is not JSON), or the response
    has another status. *)
Definition succeeds (o : FetchResult) : bool :=
  match o with
  | Resolved r => ok r && match body r with JsonObj _ => true | _ => false end
  | Rejected _ => false
  end.

Definition throws (o : FetchResult) : bool :=
  match o with
  | Resolved r => ok r && match body r with NotJson _ => true | _ => false end
  | Rejected _ => true
  end.

Definition not_ok (o : FetchResult) : bool :=
  match o with
  | Resolved r => negb (ok r)
  | Rejected _ => false
  end.

(** A probe fails when it does not report the backend reachable. *)
Definition fails (o : FetchResult) : bool := negb (succeeds o).

(** ** Sample answers of the network *)

Definition no_data : Data :=
  {| reply := None; d_responseTime := None; d_sessionId := IdUndefined;
     d_error := None |}.

Definition http (code : Z) (d : Data) : FetchResult :=
  Resolved {| status := code; body := JsonObj d |}.

Definition timed_out : FetchResult :=
  Rejected {| name := "AbortError"; message := "The user aborted a request." |}.

Definition failed_to_fetch : FetchResult :=
  Rejected {| name := "TypeError"; message := "Failed to fetch" |}.

Definition net_of (os : list FetchResult) (dflt : FetchResult) : Net :=
  {| probe := fun n => nth n os dflt; primary := http 200 no_data;
     fallback := http 200 no_data; now := "2025-01-01T00:00:00.000Z" |}.

(** ** Stores and scenarios the properties speak of *)

(** The message [sendMessage] builds from the input of render [r]. *)
Definition sent_message (r : World) (t_sent : string) : Message :=
  {| sender := user; text := Some (trim (input r)); timestamp := t_sent;
     responseTime := None |}.

(** The store with more events on its trace and nothing else changed. *)
Definition add_events (evs : list Event) (w : World) : World :=
  {| serverStatus := serverStatus w; messages := messages w;
     input := input w; loading := loading w; sessionId := sessionId w;
     typingIndicator := typingIndicator w; wakeAttempts := wakeAttempts w;
     connectionError := connectionError w; trace := (trace w ++ evs)%list;
     cycles := cycles w |}.

(** The store after a probe that made the [try] block return. *)
Definition after_success (t : string) (w : World) : World :=
  {| serverStatus := ready; messages := [welcome t]; input := input w;
     loading := loading w; sessionId := sessionId w;
     typingIndicator := typingIndicator w; wakeAttempts := 0;
     connectionError := connectionError w; trace := trace w;
     cycles := cycles w |}.

(** The store after a probe that threw with [retries = r], [evs] being
    what the [catch] block (and the exit of the loop) did outside. *)
Definition after_throw (r : nat) (evs : list Event) (w : World) : World :=
  {| serverStatus :=
       if (S r <? maxRetries)%nat
       then (if (r =? 0)%nat then waking else serverStatus w)
       else error;
     messages := messages w; input := input w; loading := loading w;
     sessionId := sessionId w; typingIndicator := typingIndicator w;
     wakeAttempts := wakeAttempts w;
     connectionError :=
       Some (if (S r <? maxRetries)%nat
             then "Wake attempt " ++ string_of_nat (S r) ++ "/"
                  ++ string_of_nat maxRetries ++ "..."
             else "Server wake failed after multiple attempts");
     trace := (trace w ++ evs)%list; cycles := cycles w |}.

(** The delays and probes that follow [k] probes thrown from
    [retries = r] on. *)
Definition backoff (r k : nat) : list Tick :=
  flat_map (fun i => [Delay (waitTime (S i)); Probe]) (seq r k).

(** The number of probes among the ticks. *)
Definition probe_count (l : list Tick) : nat :=
  List.length (filter (fun x => match x with Probe => true | _ => false end) l).

(** The state variables of [w'] are those of [w]. *)
Definition same_state (w w' : World) : Prop :=
  serverStatus w' = serverStatus w
  /\ messages w' = messages w
  /\ input w' = input w
  /\ loading w' = loading w
  /\ sessionId w' = sessionId w
  /\ typingIndicator w' = typingIndicator w
  /\ wakeAttempts w' = wakeAttempts w
  /\ connectionError w' = connectionError w.

(** [null] or [undefined]. *)
Definition null_or_absent (i : JsId) : bool :=
  match i with
  | IdNull | IdUndefined => true
  | IdStr _ => false
  end.

(** The session ids sent along with chat requests, in order. *)
Definition sent_session_ids (t : list Event) : list JsId :=
  flat_map (fun q => match payload q with
                     | Some b => [p_sessionId b]
                     | None => []
                     end) (requests t).

(** The backend answers the probes of the first invocation in flight
    with [os], one after the other. *)
Fixpoint answer_probes (cfg : Config) (os : list FetchResult)
    (p f : FetchResult) (t : string) : M unit :=
  match os with
  | [] => ret tt
  | o :: os' => resume_nth cfg 0 o p f t ;; answer_probes cfg os' p f t
  end.

(** A store in [Ready] with text typed into the input box. *)
Definition chatting (typed : string) (sid : JsId) : World :=
  {| serverStatus := ready; messages := [welcome "2025-01-01T00:00:00.000Z"];
     input := typed; loading := false; sessionId := sid;
     typingIndicator := false; wakeAttempts := 0; connectionError := None;
     trace := []; cycles := [] |}.

(** HTTP 503 with a page of HTML as its body, as a proxy in front of a
    sleeping backend sends it. *)
Definition html_503 : FetchResult :=
  Resolved {| status := 503;
              body := NotJson "Unexpected token < in JSON at position 0" |}.

(** The ways [initSession] fails: the request is rejected, or the body
    of the response is not JSON. *)
Definition session_fails (o : FetchResult) : bool :=
  match o with
  | Rejected _ => true
  | Resolved r => match body r with NotJson _ => true | JsonObj _ => false end
  end.

(** A session of a backend that then goes to sleep and comes back,
    played from the mount of the component: the first cycle succeeds at
    once and a session id is acquired; a chat request times out, which
    starts a second cycle; that cycle succeeds too, and the component
    is [ready] again. *)
Definition woken_up_again (cfg : Config) : World :=
  let sid :=
    {| reply := None; d_responseTime := None; d_sessionId := IdStr "abc123";
       d_error := None |} in
  let step1 := exec (mount cfg) initial in
  let step2 :=
    exec (resume_nth cfg 0 (http 200 no_data) timed_out timed_out "t0") step1 in
  let step3 := exec (initSession cfg step2 (http 200 sid)) step2 in
  let step4 := exec (setInput "hello") step3 in
  let step5 := exec (sendMessage cfg step4 timed_out "t1" "t2") step4 in
  exec (resume_nth cfg 1 (http 200 no_data) timed_out timed_out "t3") step5.

(** ** The two repeating timers *)

(** The functions handed to [setInterval], lines 80 and 83. *)
Inductive Callback := cbSendKeepAlive | cbCheckServerHealth.

(** A timer started by [setInterval] and not yet cleared. *)
Record Interval := mkInterval {
  iv_id : nat;
  iv_callback : Callback;
  iv_period : Z
}.

(** The two refs of lines 19-20 ([None] is [null]), the timers of the
    page that are running, and the id the next [setInterval] returns
    (browsers hand out positive ids). *)
Record Timers := mkTimers {
  keepAliveInterval : option nat;
  wakeCheckInterval : option nat;
  intervals : list Interval;
  next_id : nat
}.

Definition initial_timers : Timers :=
  {| keepAliveInterval := None; wakeCheckInterval := None; intervals := [];
     next_id := 1 |}.

(** [setInterval(cb, ms)]: the timer runs, its id is returned. *)
Definition setInterval (cb : Callback) (ms : Z) (t : Timers) : nat * Timers :=
  (next_id t,
   {| keepAliveInterval := keepAliveInterval t;
      wakeCheckInterval := wakeCheckInterval t;
      intervals := (intervals t ++ [mkInterval (next_id t) cb ms])%list;
      next_id := S (next_id t) |}).

(** [clearInterval(id)]: the timer of that id, if it runs, is stopped. *)
Definition clearInterval (id : nat) (t : Timers) : Timers :=
  {| keepAliveInterval := keepAliveInterval t;
     wakeCheckInterval := wakeCheckInterval t;
     intervals := filter (fun i => negb (iv_id i =? id)%nat) (intervals t);
     next_id := next_id t |}.

(** [if (ref.current)]: neither [null] nor 0. *)
Definition truthy_ref (r : option nat) : bool :=
  match r with
  | Some id => negb (id =? 0)%nat
  | None => false
  end.

(** The body of the effect on [serverStatus], lines 78-84. *)
Definition intervals_effect (s : ServerStatus) (t : Timers) : Timers :=
  if ServerStatus_eqb s ready then
    let (id1, t1) := setInterval cbSendKeepAlive (10 * 60 * 1000) t in
    let t2 :=
      {| keepAliveInterval := Some id1;
         wakeCheckInterval := wakeCheckInterval t1;
         intervals := intervals t1; next_id := next_id t1 |} in
    let (id2, t3) := setInterval cbCheckServerHealth (5 * 60 * 1000) t2 in
    {| keepAliveInterval := keepAliveInterval t3;
       wakeCheckInterval := Some id2;
       intervals := intervals t3; next_id := next_id t3 |}
  else t.

(** The cleanup of that effect, lines 86-93. *)
Definition intervals_cleanup (t : Timers) : Timers :=
  let t1 :=
    if truthy_ref (keepAliveInterval t)
    then match keepAliveInterval t with
         | Some id => clearInterval id t
         | None => t
         end
    else t in
  if truthy_ref (wakeCheckInterval t1)
  then match wakeCheckInterval t1 with
       | Some id => clearInterval id t1
       | None => t1
       end
  else t1.

(** The cleanup of the mount effect, lines 229-233. *)
Definition mount_cleanup (t : Timers) : Timers :=
  if truthy_ref (keepAliveInterval t)
  then match keepAliveInterval t with
       | Some id => clearInterval id t
       | None => t
       end
  else t.

(** React runs an effect with the dependency [serverStatus] after the
    first render, and again after a render in which [serverStatus]
    differs from the render before, the cleanup of the earlier run
    first. *)
Definition first_render (s : ServerStatus) : Timers :=
  intervals_effect s initial_timers.

Definition next_render (old new : ServerStatus) (t : Timers) : Timers :=
  if ServerStatus_eqb old new then t
  else intervals_effect new (intervals_cleanup t).

(** The renders that follow one with status [s], given the status of
    each; the result is the status of the last render and the timers. *)
Fixpoint renders (s : ServerStatus) (ss : list ServerStatus) (t : Timers)
    : ServerStatus * Timers :=
  match ss with
  | [] => (s, t)
  | s' :: ss' => renders s' ss' (next_render s s' t)
  end.

(** The component is removed: the cleanups of both effects run. *)
Definition unmount (t : Timers) : Timers :=
  mount_cleanup (intervals_cleanup t).

(** What runs, by callback and period. *)
Definition running (t : Timers) : list (Callback * Z) :=
  map (fun i => (iv_callback i, iv_period i)) (intervals t).

(** ** The theme *)

(** The state variable [theme], the entry ['theme'] of [localStorage]
    and the attribute [data-theme] of the document ([None]: not set). *)
Record ThemeStore := mkThemeStore {
  theme : string;
  stored_theme : option string;
  data_theme : option string
}.

(** A fresh component in a page with [saved] in [localStorage]. *)
Definition fresh_theme (saved : option string) : ThemeStore :=
  {| theme := "light"; stored_theme := saved; data_theme := None |}.

(** The effect of lines 36-40, run once after the first render. *)
Definition load_theme (t : ThemeStore) : ThemeStore :=
  let savedTheme := or_else (stored_theme t) "light" in
  {| theme := savedTheme; stored_theme := stored_theme t;
     data_theme := Some savedTheme |}.

(** [toggleTheme], lines 43-48. *)
Definition toggleTheme (t : ThemeStore) : ThemeStore :=
  let newTheme := if String.eqb (theme t) "light" then "dark" else "light" in
  {| theme := newTheme; stored_theme := Some newTheme;
     data_theme := Some newTheme |}.

(** ** The list of recent leads *)

Record Lead := mkLead {
  lead_name : string;
  lead_timestamp : string;
  lead_phone : string;
  lead_email : string;
  lead_interest : string;
  lead_message : string
}.

(** The body of the answer of [/api/leads/recent] as [loadRecentLeads]
    reads it: not JSON, or a value with or without a [leads] array. *)
Inductive LeadsBody :=
| LeadsNotJson (msg : string)
| LeadsObj (leads : option (list Lead)).

Inductive LeadsResult :=
| LeadsRejected (e : JsError)
| LeadsResolved (code : Z) (b : LeadsBody).

(** The state variables [showLeads] and [recentLeads], and what the
    function does outside. *)
Record LeadsView := mkLeadsView {
  showLeads : bool;
  recentLeads : list Lead;
  leads_trace : list Event
}.

(** [loadRecentLeads], lines 353-370.  An array, even an empty one, is
    truthy, so [data.leads || []] is the array when there is one. *)
Definition loadRecentLeads (cfg : Config) (o : LeadsResult) (v : LeadsView)
    : LeadsView :=
  let issued := (leads_trace v ++ [EvFetch (leads_request cfg)])%list in
  let failed (e : JsError) :=
    {| showLeads := showLeads v; recentLeads := recentLeads v;
       leads_trace := (issued ++ [EvError "Failed to load leads:" e])%list |} in
  match o with
  | LeadsRejected e => failed e
  | LeadsResolved _ (LeadsNotJson msg) =>
      failed {| name := "SyntaxError"; message := msg |}
  | LeadsResolved _ (LeadsObj leads) =>
      {| showLeads := true;
         recentLeads := match leads with Some l => l | None => [] end;
         leads_trace := issued |}
  end.

(** The modal body, lines 502-525: the cards, or "No leads yet". *)
Definition leads_grid_shown (v : LeadsView) : bool :=
  (0 <? List.length (recentLeads v))%nat.

(** ** What is on screen *)

(** The four returns of the component, lines 385, 413, 444 and 468. *)
Inductive Screen := LoadingScreen | WakingScreen | ErrorScreen | ChatScreen.

Definition screen (w : World) : Screen :=
  match serverStatus w with
  | checking => LoadingScreen
  | waking => WakingScreen
  | error => ErrorScreen
  | ready => ChatScreen
  end.

(** The screens with a button bound to [manualWakeUp], lines 437 and
    457. *)
Definition retry_button (s : Screen) : bool :=
  match s with
  | WakingScreen | ErrorScreen => true
  | _ => false
  end.

(** [disabled] of the send button, line 575. *)
Definition send_disabled (r : World) : bool :=
  loading r || String.eqb (trim (input r)) "".

(** [msg.text.split('\n')], line 549: the pieces between line feeds. *)
Fixpoint split_lines (s : string) : list string :=
  match s with
  | EmptyString => [EmptyString]
  | String c s' =>
      if Ascii.eqb c "010"%char then EmptyString :: split_lines s'
      else match split_lines s' with
           | l :: ls => String c l :: ls
           | [] => [String c EmptyString]
           end
  end.



(** ** Notions the further properties speak of *)

(** Every message has a text. *)
Definition texts_defined (ms : list Message) : bool :=
  forallb (fun m => match text m with Some _ => true | None => false end) ms.

(** The request resolved with a 2xx status. *)
Definition resolved_ok (o : FetchResult) : bool :=
  match o with
  | Resolved r => ok r
  | Rejected _ => false
  end.

Definition rejected (o : FetchResult) : bool :=
  match o with
  | Rejected _ => true
  | Resolved _ => false
  end.

(** The local [retries] of a suspended invocation of [wakeUpServer]. *)
Definition retries_of (c : Cycle) : nat :=
  match c with
  | AwaitProbe r | AwaitDelay r => r
  | Returned _ => 0
  end.

(** The suspended states [wakeUpServer] can be in. *)
Definition reachable_cycle (c : Cycle) : Prop :=
  match c with
  | AwaitProbe r => (r < maxRetries)%nat
  | AwaitDelay r => (1 <= r < maxRetries)%nat
  | Returned _ => False
  end.

(** [m] run [n] times in a row. *)
Fixpoint times (n : nat) (m : M unit) : M unit :=
  match n with
  | O => ret tt
  | S n' => m ;; times n' m
  end.

(** The delays among ticks. *)
Definition tick_delays (l : list Tick) : list Z :=
  flat_map (fun k => match k with Delay ms => [ms] | Probe => [] end) l.

(** The timers are as the status [s] of the last render wants them:
    the two of the effect when it is [ready], none otherwise; the refs
    hold ids handed out before. *)
Definition timers_ok (s : ServerStatus) (t : Timers) : Prop :=
  (1 <= next_id t)%nat
  /\ (forall id, keepAliveInterval t = Some id -> (1 <= id < next_id t)%nat)
  /\ (forall id, wakeCheckInterval t = Some id -> (1 <= id < next_id t)%nat)
  /\ if ServerStatus_eqb s ready then
       exists a b,
         keepAliveInterval t = Some a /\ wakeCheckInterval t = Some b
         /\ a <> b
         /\ intervals t
            = [mkInterval a cbSendKeepAlive 600000;
               mkInterval b cbCheckServerHealth 300000]
     else intervals t = [].

(** ** Awaits that never complete *)

(** How the awaits of one invocation of [wakeUpServer] go when not all
    of them complete.  A probe is requested with a signal that aborts it
    after 8 s, so the request settles; but [healthRes.json()] is awaited
    after that timer is cleared (lines 186-189): [probe_arrives n] is
    [None] when the [n]-th probe is answered with a 2xx status and a
    body whose reading never completes.  The primary wake request has a
    signal and its body is not read: it settles.  The fallback request
    has no signal (lines 150-153): [fallback_arrives] is [None] when it
    stays pending. *)
Record Arrivals := mkArrivals {
  probe_arrives : nat -> option FetchResult;
  primary_arrives : FetchResult;
  fallback_arrives : option FetchResult;
  clock : string
}.

(** How far an invocation gets: the model ran out of fuel, the
    invocation waits for ever on an await, or it returned. *)
Inductive Run :=
| OutOfFuel
| Pending
| Finished (c : Completion bool) (w : World).

(** Resumes the cycle until it returns or waits for ever.  The fallback
    request is awaited exactly when a probe throws with [retries = 0]
    (lines 203-205) and the primary request is rejected (line 145); in
    every other resumption [resume] does not look at the fallback, and a
    timer always fires. *)
Fixpoint drive_arrivals (cfg : Config) (a : Arrivals) (fuel n : nat)
    (c : Cycle) (w : World) : Run :=
  match c with
  | Returned v => Finished (Normal v) w
  | _ =>
      match fuel with
      | O => OutOfFuel
      | S fuel' =>
          let continue (o f : FetchResult) :=
            match resume cfg c o (primary_arrives a) f (clock a) w with
            | (Normal c', w') =>
                drive_arrivals cfg a fuel'
                  (match c with AwaitProbe _ => S n | _ => n end) c' w'
            | (Throw e, w') => Finished (Throw e) w'
            end in
          match c with
          | AwaitProbe r =>
              match probe_arrives a n with
              | None => Pending
              | Some o =>
                  if throws o && (r =? 0)%nat && rejected (primary_arrives a)
                  then
                    match fallback_arrives a with
                    | None => Pending
                    | Some f => continue o f
                    end
                  else continue o (primary_arrives a)
              end
          | _ => continue (primary_arrives a) (primary_arrives a)
          end
      end
  end.

(** [await wakeUpServer()] under such arrivals. *)
Definition wakeUpServer_arrivals (cfg : Config) (a : Arrivals) (fuel : nat)
    (w : World) : Run :=
  match wakeUpServer_start cfg w with
  | (Normal c, w') => drive_arrivals cfg a fuel 0 c w'
  | (Throw e, w') => Finished (Throw e) w'
  end.

(** The arrivals as a network in which everything settles; what never
    arrives is given an answer that is not looked at where the two
    agree. *)
Definition settled (a : Arrivals) : Net :=
  {| probe := fun n => match probe_arrives a n with
                       | Some o => o
                       | None => timed_out
                       end;
     primary := primary_arrives a;
     fallback := match fallback_arrives a with
                 | Some f => f
                 | None => timed_out
                 end;
     now := clock a |}.

Definition run_of (r : option (Completion bool * World)) : Run :=
  match r with
  | Some (c, w) => Finished c w
  | None => OutOfFuel
  end.

(** * Properties *)

Unset Implicit Arguments.

(** ** Traces *)

Lemma requests_app (a b : list Event) :
  requests (a ++ b) = (requests a ++ requests b)%list.
Proof. unfold requests. apply flat_map_app. Qed.

Lemma delays_app (a b : list Event) :
  delays (a ++ b) = (delays a ++ delays b)%list.
Proof. unfold delays. apply flat_map_app. Qed.

Lemma ticks_app cfg (a b : list Event) :
  ticks cfg (a ++ b) = (ticks cfg a ++ ticks cfg b)%list.
Proof. unfold ticks. apply flat_map_app. Qed.

Lemma requested_app q (a b : list Event) :
  requested q (a ++ b) = requested q a + requested q b.
Proof. unfold requested. rewrite requests_app. apply count_occ_app. Qed.

(** Decides the comparisons of requests left in a goal: two requests of
    the component that differ do so in their [signal]. *)
Ltac decide_requests :=
  repeat match goal with
    | |- context [Request_eq_dec ?a ?b] =>
        let E := fresh "E" in
        destruct (Request_eq_dec a b) as [E|E];
        [ try (apply (f_equal signal) in E; discriminate E)
        | try congruence ]
    end.

(** Counts requests, probes and delays in an explicit list of events. *)
Ltac read_trace :=
  unfold requested, requests, ticks, delays; simpl; decide_requests;
  auto.

Lemma add_events_add a b w :
  add_events b (add_events a w) = add_events (a ++ b) w.
Proof. unfold add_events. simpl. rewrite app_assoc. reflexivity. Qed.

Lemma add_events_eq w evs t :
  t = (trace w ++ evs)%list ->
  {| serverStatus := serverStatus w; messages := messages w;
     input := input w; loading := loading w; sessionId := sessionId w;
     typingIndicator := typingIndicator w; wakeAttempts := wakeAttempts w;
     connectionError := connectionError w; trace := t;
     cycles := cycles w |} = add_events evs w.
Proof. intros ->. reflexivity. Qed.

(** ** [triggerWakeUp] *)

Section TriggerWakeUp.
Variable cfg : Config.

(** [triggerWakeUp] completes normally whatever the network does, asks
    for [/api/wake] exactly once, and only adds to the trace. *)
Lemma triggerWakeUp_frame (p f : FetchResult) (w : World) :
  exists b evs,
    triggerWakeUp cfg p f w = (Normal b, add_events evs w)
    /\ requested (wake_request cfg) evs = 1
    /\ ticks cfg evs = []
    /\ delays evs = [].
Proof.
  unfold triggerWakeUp, try_catch, bind, fetch, console_log.
  destruct p as [e|r]; simpl;
    [ destruct f as [e'|r']; simpl; [| destruct (ok r'); simpl ]
    | destruct (ok r); simpl ];
    eexists _, _;
    (split;
     [ apply f_equal, add_events_eq; repeat rewrite <- app_assoc;
       simpl; reflexivity
     | read_trace ]).
Qed.
End TriggerWakeUp.

(** ** One resumption of [wakeUpServer] *)

Section Resume.
Variable cfg : Config.
Variables (p f : FetchResult) (t : string).

Lemma resume_succeeds r o w :
  succeeds o = true ->
  resume cfg (AwaitProbe r) o p f t w
  = (Normal (Returned true), after_success t w).
Proof.
  destruct o as [e|[st [msg|d]]]; simpl; try discriminate;
    unfold ok; simpl; intros H.
  - rewrite andb_false_r in H. discriminate.
  - rewrite andb_true_r in H.
    unfold resume, loop_body, try_catch, bind, settle, ret, ok. simpl.
    rewrite H. reflexivity.
Qed.

Lemma resume_not_ok r o w :
  not_ok o = true -> (r < maxRetries)%nat ->
  resume cfg (AwaitProbe r) o p f t w
  = (Normal (AwaitProbe r),
     add_events [EvFetch (health_probe_request cfg)] w).
Proof.
  destruct o as [e|resp]; simpl; try discriminate. intros H Hr.
  apply negb_true_iff in H.
  unfold resume, loop_body, try_catch, bind, settle, ret, loop_head. simpl.
  rewrite H. apply Nat.ltb_lt in Hr. rewrite Hr. reflexivity.
Qed.

Lemma resume_delay r o w :
  (r < maxRetries)%nat ->
  resume cfg (AwaitDelay r) o p f t w
  = (Normal (AwaitProbe r),
     add_events [EvFetch (health_probe_request cfg)] w).
Proof.
  intros Hr. apply Nat.ltb_lt in Hr.
  unfold resume, loop_head. rewrite Hr. reflexivity.
Qed.

(** A probe that throws enters the [catch] block. *)
Lemma loop_body_throws r o w :
  throws o = true ->
  exists e, loop_body cfg r o p f t w = wake_catch cfg r p f e w.
Proof.
  intros H.
  destruct o as [e|[st [msg|d]]]; simpl in H; try discriminate.
  - exists e. reflexivity.
  - unfold ok in H; simpl in H. rewrite andb_true_r in H.
    eexists. unfold loop_body, try_catch, bind, settle, ret, json, ok, throw.
    cbn [status body]. rewrite H. reflexivity.
  - rewrite andb_false_r in H. discriminate.
Qed.

Local Opaque triggerWakeUp string_of_nat waitTime.

Lemma resume_throws r o w :
  throws o = true ->
  exists evs,
    resume cfg (AwaitProbe r) o p f t w
    = (Normal (if (S r <? maxRetries)%nat then AwaitDelay (S r)
               else Returned false),
       after_throw r evs w)
    /\ ticks cfg evs
       = (if (S r <? maxRetries)%nat then [Delay (waitTime (S r))] else [])
    /\ requested (wake_request cfg) evs = (if (r =? 0)%nat then 1 else 0).
Proof.
  intros H.
  destruct (loop_body_throws r o w H) as [e He].
  unfold resume, bind at 1. rewrite He. clear He H.
  unfold wake_catch, bind, console_log, emit, setServerStatus,
    setConnectionError, ret, loop_head.
  destruct (r =? 0)%nat eqn:R0.
  - apply Nat.eqb_eq in R0. subst r. simpl.
    match goal with |- context [triggerWakeUp cfg p f ?w0] =>
      destruct (triggerWakeUp_frame cfg p f w0) as (b & evs & Heq & Hq & Ht & _)
    end.
    rewrite Heq. simpl.
    eexists. split; [|split].
    + unfold after_throw. simpl. repeat rewrite <- app_assoc. reflexivity.
    + rewrite !ticks_app, Ht. reflexivity.
    + rewrite !requested_app, Hq. reflexivity.
  - simpl. destruct (S r <? maxRetries)%nat eqn:R5; simpl.
    + eexists. split; [|split].
      * unfold after_throw. rewrite R5. simpl. rewrite R0.
        repeat rewrite <- app_assoc. reflexivity.
      * reflexivity.
      * reflexivity.
    + rewrite R5. simpl.
      eexists. split; [|split].
      * unfold after_throw. rewrite R5. reflexivity.
      * reflexivity.
      * reflexivity.
Qed.
End Resume.

(** ** A whole cycle *)

Section Drive.
Variable cfg : Config.
Variable net : Net.

Lemma drive_probe_step fuel n r w c' w' :
  resume cfg (AwaitProbe r) (probe net n) (primary net) (fallback net)
         (now net) w = (Normal c', w') ->
  drive cfg net (S fuel) n (AwaitProbe r) w = drive cfg net fuel (S n) c' w'.
Proof. intros H. cbn [drive]. rewrite H. reflexivity. Qed.

Lemma drive_delay_step fuel n r w c' w' :
  resume cfg (AwaitDelay r) (probe net n) (primary net) (fallback net)
         (now net) w = (Normal c', w') ->
  drive cfg net (S fuel) n (AwaitDelay r) w = drive cfg net fuel n c' w'.
Proof. intros H. cbn [drive]. rewrite H. reflexivity. Qed.

(** The part of [wakeUpServer] before its first [await]. *)
Lemma wakeUpServer_start_eq w :
  wakeUpServer_start cfg w
  = (Normal (AwaitProbe 0),
     add_events [EvFetch (health_probe_request cfg)]
       (exec (setConnectionError None ;;
              setWakeAttempts (fun prev => prev + 1)%nat) w)).
Proof. reflexivity. Qed.

(** [k] probes in a row throw, with room left in the budget: the cycle
    is back at a probe, [k] turns later. *)
Lemma drive_throws k : forall r n w fuel,
  (r + k <= 4)%nat ->
  (forall i, (i < k)%nat -> throws (probe net (n + i)) = true) ->
  exists w',
    drive cfg net (2 * k + fuel) n (AwaitProbe r) w
    = drive cfg net fuel (n + k) (AwaitProbe (r + k)) w'
    /\ serverStatus w'
       = (if (k =? 0)%nat then serverStatus w
          else if (r =? 0)%nat then waking else serverStatus w)
    /\ messages w' = messages w
    /\ wakeAttempts w' = wakeAttempts w
    /\ ticks cfg (trace w') = (ticks cfg (trace w) ++ backoff r k)%list
    /\ requested (wake_request cfg) (trace w')
       = requested (wake_request cfg) (trace w)
         + (if (r =? 0)%nat && negb (k =? 0)%nat then 1 else 0).
Proof.
  induction k as [|k IH]; intros r n w fuel Hr Hthrow.
  - exists w. rewrite !Nat.add_0_r, andb_false_r. simpl.
    rewrite app_nil_r. repeat split; lia.
  - assert (H0 : throws (probe net n) = true).
    { rewrite <- (Nat.add_0_r n). apply Hthrow. lia. }
    destruct (resume_throws cfg (primary net) (fallback net) (now net) r
                (probe net n) w H0) as (evs & Hres & Hticks & Hreq).
    assert (R5 : (S r <? maxRetries)%nat = true)
      by (apply Nat.ltb_lt; unfold maxRetries; lia).
    rewrite R5 in Hres, Hticks.
    replace (2 * S k + fuel) with (S (S (2 * k + fuel))) by lia.
    erewrite drive_probe_step by exact Hres.
    erewrite drive_delay_step
      by (apply resume_delay; unfold maxRetries; lia).
    destruct (IH (S r) (S n)
                (add_events [EvFetch (health_probe_request cfg)]
                   (after_throw r evs w)) fuel ltac:(lia)) as (w' & Hd & Hs & Hm & Ha & Ht & Hq).
    { intros i Hi. replace (S n + i) with (n + S i) by lia.
      apply Hthrow. lia. }
    exists w'. replace (n + S k) with (S n + k) by lia.
    replace (r + S k) with (S r + k) by lia.
    split; [exact Hd|].
    simpl serverStatus in Hs. rewrite R5 in Hs.
    simpl messages in Hm. simpl wakeAttempts in Ha.
    simpl trace in Ht, Hq.
    repeat split.
    + rewrite Hs. simpl. destruct (k =? 0)%nat; destruct (r =? 0)%nat; reflexivity.
    + exact Hm.
    + exact Ha.
    + rewrite Ht, !ticks_app, Hticks.
      assert (Hp : ticks cfg [EvFetch (health_probe_request cfg)] = [Probe])
        by read_trace.
      rewrite Hp. unfold backoff. simpl. rewrite <- !app_assoc. reflexivity.
    + rewrite Hq, !requested_app, Hreq.
      assert (Hp : requested (wake_request cfg)
                     [EvFetch (health_probe_request cfg)] = 0)
        by read_trace.
      rewrite Hp. simpl. destruct (r =? 0)%nat; simpl; lia.
Qed.

(** The first [k] probes throw and the next one succeeds, [k <= 4]: the
    cycle returns [true] with the store [Ready], the counter at 0, the
    welcome message alone in the chat, and [/api/wake] requested once
    if [k > 0] and not at all if [k = 0]. *)
Lemma wakeUpServer_throws_then_succeeds k w :
  (k <= 4)%nat ->
  (forall i, (i < k)%nat -> throws (probe net i) = true) ->
  succeeds (probe net k) = true ->
  exists w',
    wakeUpServer cfg net 9 w = Some (Normal true, w')
    /\ serverStatus w' = ready
    /\ wakeAttempts w' = 0
    /\ messages w' = [welcome (now net)]
    /\ ticks cfg (trace w')
       = (ticks cfg (trace w) ++ Probe :: backoff 0 k)%list
    /\ requested (wake_request cfg) (trace w')
       = requested (wake_request cfg) (trace w)
         + (if (k =? 0)%nat then 0 else 1).
Proof.
  intros Hk Hthrow Hsucc.
  unfold wakeUpServer. rewrite wakeUpServer_start_eq.
  replace 9 with (2 * k + S (8 - 2 * k)) by lia.
  match goal with |- context [drive _ _ _ 0 _ ?w0] =>
    destruct (drive_throws k 0 0 w0 (S (8 - 2 * k)) ltac:(lia) Hthrow)
      as (w1 & Hd & _ & _ & _ & Ht & Hq)
  end.
  rewrite Hd. simpl Nat.add.
  erewrite drive_probe_step by (apply resume_succeeds; exact Hsucc).
  exists (after_success (now net) w1).
  split; [destruct (8 - 2 * k); reflexivity|].
  repeat split.
  - simpl trace. rewrite Ht. simpl trace. rewrite !ticks_app.
    assert (Hp : ticks cfg [EvFetch (health_probe_request cfg)] = [Probe])
      by read_trace.
    rewrite Hp, <- app_assoc. reflexivity.
  - simpl trace. rewrite Hq. simpl trace. rewrite !requested_app.
    assert (Hp : requested (wake_request cfg)
                   [EvFetch (health_probe_request cfg)] = 0)
      by read_trace.
    rewrite Hp. simpl. destruct (k =? 0)%nat; simpl; lia.
Qed.

(** All five probes throw: the cycle returns [false] with the store in
    [Error] and the terminal message, after the delays 3000, 6000,
    12000 and 24000 ms, each between two probes. *)
Lemma wakeUpServer_all_throw w :
  (forall i, (i < 5)%nat -> throws (probe net i) = true) ->
  exists w',
    wakeUpServer cfg net 9 w = Some (Normal false, w')
    /\ serverStatus w' = error
    /\ connectionError w'
       = Some "Server wake failed after multiple attempts"
    /\ ticks cfg (trace w')
       = (ticks cfg (trace w)
          ++ [Probe; Delay 3000; Probe; Delay 6000; Probe; Delay 12000;
              Probe; Delay 24000; Probe])%list
    /\ requested (wake_request cfg) (trace w')
       = requested (wake_request cfg) (trace w) + 1.
Proof.
  intros Hthrow.
  unfold wakeUpServer. rewrite wakeUpServer_start_eq.
  match goal with |- context [drive _ _ _ 0 _ ?w0] =>
    destruct (drive_throws 4 0 0 w0 1 ltac:(lia)
                ltac:(intros; apply Hthrow; lia))
      as (w1 & Hd & _ & _ & _ & Ht & Hq)
  end.
  change 9 with (2 * 4 + 1). rewrite Hd. simpl Nat.add.
  destruct (resume_throws cfg (primary net) (fallback net) (now net) 4
              (probe net 4) w1 (Hthrow 4 ltac:(lia)))
    as (evs & Hres & Hticks & Hreq).
  change (S 4 <? maxRetries)%nat with false in Hres, Hticks.
  erewrite drive_probe_step by exact Hres.
  exists (after_throw 4 evs w1). split; [reflexivity|].
  repeat split.
  - simpl trace. rewrite ticks_app, Hticks, Ht. simpl trace.
    rewrite !ticks_app.
    assert (Hp : ticks cfg [EvFetch (health_probe_request cfg)] = [Probe])
      by read_trace.
    rewrite Hp, app_nil_r, <- app_assoc. reflexivity.
  - simpl trace. rewrite requested_app, Hreq, Hq. simpl trace.
    rewrite !requested_app.
    assert (Hp : requested (wake_request cfg)
                   [EvFetch (health_probe_request cfg)] = 0)
      by read_trace.
    rewrite Hp. simpl. lia.
Qed.
End Drive.

(** ** Every way a probe can go *)

Lemma probe_cases (o : FetchResult) :
  succeeds o = true \/ throws o = true \/ not_ok o = true.
Proof.
  destruct o as [e|[st [msg|d]]]; simpl; auto;
    destruct (ok _); simpl; auto.
Qed.

Lemma fails_cases (o : FetchResult) :
  fails o = true <-> throws o = true \/ not_ok o = true.
Proof.
  unfold fails.
  destruct o as [e|[st [msg|d]]]; simpl; try tauto;
    destruct (ok _); simpl; intuition discriminate.
Qed.

Section Outcomes.
Variable cfg : Config.

Lemma loop_head_cases r w :
  loop_head cfg r w
  = (Normal (AwaitProbe r), add_events [EvFetch (health_probe_request cfg)] w)
  \/ (loop_head cfg r w
      = (Normal (Returned false),
         exec (setServerStatus error ;;
               setConnectionError
                 (Some "Server wake failed after multiple attempts")) w)
      /\ (maxRetries <= r)%nat).
Proof.
  unfold loop_head. destruct (r <? maxRetries)%nat eqn:E.
  - left. reflexivity.
  - right. apply Nat.ltb_ge in E. split; [reflexivity|exact E].
Qed.

Lemma resume_not_ok_any r o p f t w :
  not_ok o = true ->
  resume cfg (AwaitProbe r) o p f t w = loop_head cfg r w.
Proof.
  destruct o as [e|resp]; simpl; try discriminate. intros H.
  apply negb_true_iff in H.
  unfold resume, loop_body, try_catch, bind, settle, ret. simpl.
  rewrite H. reflexivity.
Qed.

(** A resumption completes normally, and it moves the store into
    [Ready] only through the branch of a successful probe, which leaves
    the welcome message alone in the chat. *)
Lemma resume_into_ready c o p f t w :
  exists c' w',
    resume cfg c o p f t w = (Normal c', w')
    /\ (c' = Returned true ->
        c = Returned true \/ w' = after_success t w)
    /\ (serverStatus w <> ready -> serverStatus w' = ready ->
        w' = after_success t w /\ succeeds o = true).
Proof.
  destruct c as [r|r|v].
  - destruct (probe_cases o) as [H|[H|H]].
    + rewrite (resume_succeeds cfg p f t r o w H).
      eexists _, _. split; [reflexivity|]. split; auto.
    + destruct (resume_throws cfg p f t r o w H) as (evs & Hres & _).
      rewrite Hres. eexists _, _. split; [reflexivity|]. split.
      * destruct (S r <? maxRetries)%nat; discriminate.
      * simpl. intros Hn Hr.
        destruct (S r <? maxRetries)%nat; [|discriminate].
        destruct (r =? 0)%nat; [discriminate|contradiction].
    + rewrite (resume_not_ok_any r o p f t w H).
      destruct (loop_head_cases r w) as [E|[E _]]; rewrite E;
        eexists _, _; (split; [reflexivity|]); split;
        try discriminate; simpl; intros Hn Hr;
        try contradiction; discriminate.
  - unfold resume.
    destruct (loop_head_cases r w) as [E|[E _]]; rewrite E;
      eexists _, _; (split; [reflexivity|]); split;
      try discriminate; simpl; intros Hn Hr;
      try contradiction; discriminate.
  - exists (Returned v), w. split; [reflexivity|]. split.
    + intros E. left. exact E.
    + intros Hn Hr. contradiction.
Qed.

(** A cycle that returns [true] ends in [Ready] with the welcome
    message alone in the chat and the counter at 0. *)
Lemma drive_true net fuel : forall n c w w',
  c <> Returned true ->
  drive cfg net fuel n c w = Some (Normal true, w') ->
  exists w0, w' = after_success (now net) w0.
Proof.
  induction fuel as [|fuel IH]; intros n c w w' Hc H.
  - destruct c as [r|r|[|]]; simpl in H; try discriminate. congruence.
  - destruct c as [r|r|[|]]; try (simpl in H; discriminate);
      try congruence; cbn [drive] in H;
      match type of H with context [resume cfg ?c0 ?o ?p ?f ?t w] =>
        destruct (resume_into_ready c0 o p f t w)
          as (c' & w1 & Hres & Htrue & _)
      end;
      rewrite Hres in H;
      (destruct (in_flight c') eqn:Hf;
       [ apply IH in H; [exact H|];
         intros ->; discriminate
       | destruct c' as [?|?|[|]]; try discriminate;
         [ destruct (Htrue eq_refl) as [E|E]; [discriminate|];
           destruct fuel; simpl in H; inversion H; subst;
           eexists; reflexivity
         | destruct fuel; simpl in H; discriminate ] ]).
Qed.

(** While the backend answers every probe with a status outside
    200-299, the cycle stays at [retries = 0], probing. *)
Lemma drive_not_ok_forever net :
  (forall i, not_ok (probe net i) = true) ->
  forall fuel n r w, (r < maxRetries)%nat ->
    drive cfg net fuel n (AwaitProbe r) w = None.
Proof.
  intros Hnot. induction fuel as [|fuel IH]; intros n r w Hr.
  - reflexivity.
  - erewrite drive_probe_step by (apply resume_not_ok; auto).
    apply IH. exact Hr.
Qed.

(** No probe among the first five answers with a status outside
    200-299: the cycle returns within five probes, in [Ready] or in
    [Error] with the terminal message. *)
Lemma wakeUpServer_terminates net w :
  (forall i, (i < 5)%nat -> not_ok (probe net i) = false) ->
  exists b w' l,
    wakeUpServer cfg net 9 w = Some (Normal b, w')
    /\ ticks cfg (trace w') = (ticks cfg (trace w) ++ l)%list
    /\ (probe_count l <= 5)%nat
    /\ (b = true -> serverStatus w' = ready)
    /\ (b = false ->
        serverStatus w' = error
        /\ connectionError w'
           = Some "Server wake failed after multiple attempts").
Proof.
  intros Hok.
  assert (Hcase : forall i, (i < 5)%nat ->
            succeeds (probe net i) = true \/ throws (probe net i) = true).
  { intros i Hi. destruct (probe_cases (probe net i)) as [H|[H|H]]; auto.
    rewrite (Hok i Hi) in H. discriminate. }
  assert (Hfirst :
    (exists k, (k <= 4)%nat
               /\ (forall i, (i < k)%nat -> throws (probe net i) = true)
               /\ succeeds (probe net k) = true)
    \/ (forall i, (i < 5)%nat -> throws (probe net i) = true)).
  { destruct (Hcase 0 ltac:(lia)) as [S0|T0];
      [left; exists 0; repeat split; [lia|intros; lia|exact S0]|].
    destruct (Hcase 1 ltac:(lia)) as [S1|T1];
      [left; exists 1; repeat split; [lia| |exact S1];
       intros i Hi; assert (i = 0) by lia; subst; assumption|].
    destruct (Hcase 2 ltac:(lia)) as [S2|T2];
      [left; exists 2; repeat split; [lia| |exact S2];
       intros i Hi; assert (i = 0 \/ i = 1) as [|] by lia; subst; assumption|].
    destruct (Hcase 3 ltac:(lia)) as [S3|T3];
      [left; exists 3; repeat split; [lia| |exact S3];
       intros i Hi;
       assert (i = 0 \/ i = 1 \/ i = 2) as [|[|]] by lia; subst; assumption|].
    destruct (Hcase 4 ltac:(lia)) as [S4|T4];
      [left; exists 4; repeat split; [lia| |exact S4];
       intros i Hi;
       assert (i = 0 \/ i = 1 \/ i = 2 \/ i = 3) as [|[|[|]]] by lia;
       subst; assumption|].
    right. intros i Hi.
    assert (i = 0 \/ i = 1 \/ i = 2 \/ i = 3 \/ i = 4) as [|[|[|[|]]]] by lia;
      subst; assumption. }
  destruct Hfirst as [(k & Hk & Hthrow & Hsucc)|Hall].
  - destruct (wakeUpServer_throws_then_succeeds cfg net k w Hk Hthrow Hsucc)
      as (w' & Hrun & Hs & _ & _ & Ht & _).
    exists true, w', (Probe :: backoff 0 k). repeat split; auto.
    + assert (k = 0 \/ k = 1 \/ k = 2 \/ k = 3 \/ k = 4)
        as [|[|[|[|]]]] by lia; subst; vm_compute; lia.
    + discriminate.
    + discriminate.
  - destruct (wakeUpServer_all_throw cfg net w Hall)
      as (w' & Hrun & Hs & He & Ht & _).
    exists false, w', [Probe; Delay 3000; Probe; Delay 6000; Probe;
                       Delay 12000; Probe; Delay 24000; Probe].
    repeat split; auto; try discriminate.
Qed.
End Outcomes.

(** ** [sendMessage] *)

Section SendMessage.
Variable cfg : Config.
Variables (r : World) (t_sent t_reply : string).
Hypothesis Hinput : String.eqb (trim (input r)) "" = false.
Hypothesis Hready : serverStatus r = ready.
Hypothesis Hidle : loading r = false.

Lemma sendMessage_guard_passes o w :
  exists rest,
    trace (exec (sendMessage cfg r o t_sent t_reply) w)
    = (trace w
       ++ EvFetch (chat_request cfg (trim (input r)) (sessionId r)) :: rest)%list.
Proof.
  unfold exec, sendMessage. rewrite Hinput, Hready, Hidle. simpl.
  unfold try_finally, try_catch, bind, fetch, settle, json, emit, ret, throw,
    setMessages, setInput, setLoading, setTypingIndicator.
  simpl.
  destruct o as [e|[st [msg|d]]]; simpl.
  - destruct (String.eqb (name e) "AbortError"
              || includes (message e) "Failed to fetch"); simpl;
      repeat rewrite <- app_assoc; simpl; eexists; reflexivity.
  - destruct (includes msg "Failed to fetch"); simpl;
      repeat rewrite <- app_assoc; simpl; eexists; reflexivity.
  - destruct (ok _); simpl.
    + destruct (truthy_id (d_sessionId d)); simpl; eexists; reflexivity.
    + destruct ((st =? 503)%Z || (st =? 504)%Z); simpl;
        repeat rewrite <- app_assoc; simpl; eexists; reflexivity.
Qed.

(** How a failed exchange is classified when the response, if there is
    one, carries a JSON body. *)
Lemma sendMessage_classification o w :
  let w' := exec (sendMessage cfg r o t_sent t_reply) w in
  match o with
  | Resolved {| status := st; body := JsonObj d |} =>
      ok {| status := st; body := JsonObj d |} = false ->
      if ((st =? 503) || (st =? 504))%Z then
        serverStatus w' = waking
        /\ messages w'
           = (messages w ++ [sent_message r t_sent; sleeping_notice t_reply])%list
        /\ cycles w' = (cycles w ++ [AwaitProbe 0])%list
      else
        serverStatus w' = serverStatus w
        /\ messages w'
           = (messages w ++ [sent_message r t_sent; backend_error (d_error d) t_reply])%list
        /\ cycles w' = cycles w
  | Resolved {| status := st; body := NotJson msg |} => True
  | Rejected e =>
      if String.eqb (name e) "AbortError"
         || includes (message e) "Failed to fetch"
      then
        serverStatus w' = waking
        /\ messages w'
           = (messages w ++ [sent_message r t_sent; sleeping_notice t_reply])%list
        /\ cycles w' = (cycles w ++ [AwaitProbe 0])%list
      else
        serverStatus w' = serverStatus w
        /\ messages w'
           = (messages w ++ [sent_message r t_sent; connection_error t_reply])%list
        /\ cycles w' = cycles w
  end.
Proof.
  unfold exec, sendMessage. rewrite Hinput, Hready, Hidle. simpl.
  unfold try_finally, try_catch, bind, fetch, settle, json, emit, ret, throw,
    setMessages, setInput, setLoading, setTypingIndicator.
  simpl.
  destruct o as [e|[st [msg|d]]]; simpl; [| exact I |].
  - destruct (String.eqb (name e) "AbortError"
              || includes (message e) "Failed to fetch"); simpl;
      rewrite <- app_assoc; auto.
  - intros Hok. rewrite Hok.
    destruct ((st =? 503)%Z || (st =? 504)%Z); simpl;
      rewrite <- app_assoc; auto.
Qed.
End SendMessage.

(** The text the backend reported is inside the error message. *)
Lemma backend_error_text (s t : string) :
  s <> "" -> text (backend_error (Some s) t) = Some ("❌ " ++ s).
Proof.
  intros H. unfold backend_error, or_else. simpl.
  destruct (String.eqb_spec s ""); [contradiction|reflexivity].
Qed.

(** * Scenarios *)

(** Cold start: the first probe times out, the wake trigger is invoked,
    and the second probe, 3000 ms later, succeeds. *)
Example cold_start :
  exists w,
    wakeUpServer default_config (net_of [timed_out; http 200 no_data] timed_out)
                 9 initial
    = Some (Normal true, w)
    /\ serverStatus w = ready
    /\ wakeAttempts w = 0
    /\ messages w = [welcome "2025-01-01T00:00:00.000Z"]
    /\ ticks default_config (trace w) = [Probe; Delay 3000; Probe]
    /\ requested (wake_request default_config) (trace w) = 1.
Proof.
  eexists. split; [vm_compute; reflexivity|].
  repeat split; vm_compute; reflexivity.
Qed.

(** Sleep in the middle of a conversation: the chat request of a
    component in [ready] with session id ["abc123"] is aborted by its
    timeout; the state becomes [waking] and a cycle is in flight. *)
Example mid_conversation_sleep :
  let r := chatting "still there?" (IdStr "abc123") in
  let w := exec (sendMessage default_config r timed_out "t1" "t2") r in
  serverStatus w = waking
  /\ cycles w = [AwaitProbe 0]
  /\ loading w = false
  /\ sent_session_ids (trace w) = [IdStr "abc123"].
Proof. repeat split; vm_compute; reflexivity. Qed.

(** The same when the browser reports the failure as "Failed to
    fetch". *)
Example fetch_failure_starts_reconnection :
  let r := chatting "still there?" (IdStr "abc123") in
  let w := exec (sendMessage default_config r failed_to_fetch "t1" "t2") r in
  serverStatus w = waking /\ cycles_in_flight w = 1.
Proof. repeat split; vm_compute; reflexivity. Qed.

(** HTTP 400 with the body [{error: "bad request"}]: the message shown
    contains the text of the backend and the state stays [ready]. *)
Example bad_request_is_shown :
  let r := chatting "hi" IdNull in
  let d := {| reply := None; d_responseTime := None;
              d_sessionId := IdUndefined; d_error := Some "bad request" |} in
  let w := exec (sendMessage default_config r (http 400 d) "t1" "t2") r in
  serverStatus w = ready
  /\ cycles w = []
  /\ (exists m, last (messages w) (welcome "") = m
                /\ text m = Some "❌ bad request").
Proof.
  repeat split; try (vm_compute; reflexivity).
  eexists. split; vm_compute; reflexivity.
Qed.

(** A network error that is neither an abort nor "Failed to fetch": the
    generic message, and no reconnection. *)
Example other_network_error_is_generic :
  let r := chatting "hi" IdNull in
  let o := Rejected {| name := "TypeError";
                       message := "NetworkError when attempting to fetch resource." |} in
  let w := exec (sendMessage default_config r o "t1" "t2") r in
  serverStatus w = ready
  /\ cycles w = []
  /\ last (messages w) (welcome "") = connection_error "t2".
Proof. repeat split; vm_compute; reflexivity. Qed.

(** * The reconnection cycle against its budget *)

(** C1, at the inputs where it fails.  A probe answered with a status
    outside 200-299 neither returns from the [try] block nor enters the
    [catch] block of [wakeUpServer], so [retries] is not incremented and
    the loop probes again at once.  With HTTP 503 as the answer to every
    probe the cycle returns for no amount of fuel; with six such answers
    followed by a success it returns after seven probes, not at most
    five, with no delay in between. *)
Theorem wakeUpServer_error_status_outside_budget :
  (forall cfg w fuel,
     wakeUpServer cfg (net_of [] (http 503 no_data)) fuel w = None)
  /\ (exists w',
        wakeUpServer default_config
          (net_of (repeat (http 503 no_data) 6 ++ [http 200 no_data]) timed_out)
          9 initial
        = Some (Normal true, w')
        /\ ticks default_config (trace w') = repeat Probe 7
        /\ delays (trace w') = []).
Proof.
  split.
  - intros cfg w fuel. unfold wakeUpServer. rewrite wakeUpServer_start_eq.
    apply drive_not_ok_forever.
    + intros i. simpl. destruct i as [|i]; reflexivity.
    + unfold maxRetries. lia.
  - eexists. split; [vm_compute; reflexivity|].
    split; vm_compute; reflexivity.
Qed.

(** C2, at the input where it fails.  The first five probes of a cycle
    are each answered with HTTP 503, so all five fail: the cycle is then
    still in flight at [retries = 0] with a sixth probe issued, the
    state is still [checking], no terminal message is set and no delay
    has been awaited; if 503 stays the answer, the cycle never returns,
    so it never reaches [error]. *)
Theorem wakeUpServer_five_error_statuses_no_backoff :
  let w := exec (mount default_config ;;
                 answer_probes default_config (repeat (http 503 no_data) 5)
                               timed_out timed_out "t")
                initial in
  (forall i, (i < 5)%nat -> fails (nth i (repeat (http 503 no_data) 5) timed_out) = true)
  /\ serverStatus w = checking
  /\ cycles w = [AwaitProbe 0]
  /\ connectionError w = None
  /\ ticks default_config (trace w) = repeat Probe 6
  /\ delays (trace w) = []
  /\ (forall fuel,
        wakeUpServer default_config
          (net_of (repeat (http 503 no_data) 5) (http 503 no_data)) fuel initial
        = None).
Proof.
  split; [|split; [|split; [|split; [|split; [|split]]]]];
    try (vm_compute; reflexivity).
  - intros i Hi.
    assert (i = 0 \/ i = 1 \/ i = 2 \/ i = 3 \/ i = 4) as [|[|[|[|]]]] by lia;
      subst; reflexivity.
  - intros fuel. unfold wakeUpServer. rewrite wakeUpServer_start_eq.
    apply drive_not_ok_forever.
    + intros i. simpl.
      do 5 (destruct i as [|i]; [reflexivity|]). destruct i; reflexivity.
    + unfold maxRetries. lia.
Qed.

(** C3, at the input where it fails.  The first probe is answered with
    HTTP 503 and the second succeeds ([k = 1]): the cycle ends in
    [ready] with the counter at 0 and the welcome message, but
    [triggerWakeUp] was never invoked (no request for [/api/wake]) and no
    delay was awaited, where the claim has exactly one invocation. *)
Theorem wakeUpServer_error_status_then_success_no_wake_trigger :
  fails (http 503 no_data) = true
  /\ succeeds (http 200 no_data) = true
  /\ exists w',
       wakeUpServer default_config
         (net_of [http 503 no_data; http 200 no_data] timed_out) 9 initial
       = Some (Normal true, w')
       /\ serverStatus w' = ready
       /\ wakeAttempts w' = 0
       /\ messages w' = [welcome "2025-01-01T00:00:00.000Z"]
       /\ requested (wake_request default_config) (trace w') = 0
       /\ ticks default_config (trace w') = [Probe; Probe].
Proof.
  split; [reflexivity|]. split; [reflexivity|].
  eexists. split; [vm_compute; reflexivity|].
  repeat split; vm_compute; reflexivity.
Qed.

(** * Chat exchange *)

(** C4, at the input where it fails.  [sendMessage] parses the body
    before it looks at the status (line 294), so an HTTP 503 whose body
    is not JSON (an error page of the hosting proxy) throws a
    [SyntaxError] into the [catch] block: the state stays [ready], the
    generic connectivity message is appended and no reconnection cycle
    is started, where the claim has the state demoted to [waking]. *)
Theorem sendMessage_503_unparsable_body_not_asleep :
  let r := chatting "hi" (IdStr "abc123") in
  let w' := exec (sendMessage default_config r html_503 "t1" "t2") r in
  serverStatus w' = ready
  /\ messages w'
     = (messages r
        ++ [ {| sender := user; text := Some "hi"; timestamp := "t1";
                responseTime := None |};
             connection_error "t2" ])%list
  /\ cycles w' = []
  /\ requested (health_probe_request default_config) (trace w') = 0.
Proof.
  repeat split; vm_compute; reflexivity.
Qed.

(** * Manual retry *)

(** C5 fails at this input: the component is [waking] with one cycle in
    flight, suspended on its first backoff timer; [manualWakeUp] then
    leaves two cycles in flight, and once the timer fires two probes are
    outstanding at the same time. *)
Lemma manualWakeUp_two_cycles_in_flight :
  let w := exec (mount default_config ;;
                 resume_nth default_config 0 timed_out (http 200 no_data)
                            (http 200 no_data) "t")
                initial in
  let w' := exec (manualWakeUp default_config) w in
  serverStatus w = waking
  /\ cycles_in_flight w = 1
  /\ ~ (cycles_in_flight w' <= 1)%nat
  /\ cycles w' = [AwaitDelay 1; AwaitProbe 0]
  /\ cycles (exec (resume_nth default_config 0 timed_out timed_out timed_out "t") w')
     = [AwaitProbe 1; AwaitProbe 0].
Proof.
  repeat split; try (vm_compute; reflexivity).
  vm_compute. lia.
Qed.

(** C5, as amended.  [manualWakeUp] sets the state to [waking] and starts
    a new cycle whatever is in flight already: the invocations in flight
    are the old ones and one more, suspended on its first probe. *)
Theorem manualWakeUp_starts_another_cycle cfg w :
  let w' := exec (manualWakeUp cfg) w in
  serverStatus w' = waking
  /\ cycles w' = (cycles w ++ [AwaitProbe 0])%list
  /\ cycles_in_flight w' = S (cycles_in_flight w)
  /\ requested (health_probe_request cfg) (trace w')
     = S (requested (health_probe_request cfg) (trace w)).
Proof.
  simpl. repeat split.
  - unfold cycles_in_flight. simpl. rewrite filter_app, length_app. simpl. lia.
  - rewrite requested_app.
    assert (H : requested (health_probe_request cfg)
                  [EvFetch (health_probe_request cfg)] = 1) by read_trace.
    rewrite H. lia.
Qed.

(** * The wake trigger *)

(** [triggerWakeUp] never throws: it completes with a boolean. *)
Lemma triggerWakeUp_returns_boolean cfg p f w :
  exists b, result (triggerWakeUp cfg p f) w = Normal b.
Proof.
  destruct (triggerWakeUp_frame cfg p f w) as (b & evs & H & _).
  exists b. unfold result. rewrite H. reflexivity.
Qed.

(** When the primary request is rejected, the fallback is requested, at
    a URL that carries the token. *)
Lemma triggerWakeUp_fallback_after_rejection cfg e f w :
  requested (trigger_wake_request cfg)
            (trace (exec (triggerWakeUp cfg (Rejected e) f) w))
  = S (requested (trigger_wake_request cfg) (trace w))
  /\ url (trigger_wake_request cfg)
     = API_URL cfg ++ "/api/trigger-wake?token=" ++ WAKE_TOKEN cfg.
Proof.
  split; [|reflexivity].
  unfold exec, triggerWakeUp, try_catch, bind, fetch, console_log.
  destruct f as [e'|r']; simpl; [|destruct (ok r'); simpl];
    repeat rewrite <- app_assoc; simpl; rewrite requested_app;
    match goal with |- _ + ?x = _ => assert (H : x = 1) by read_trace end;
    rewrite H; lia.
Qed.

(** C6, at the input where it fails.  The fallback is requested in the
    [catch] block of the primary request only: when [/api/wake] answers
    with HTTP 503, nothing is thrown, [triggerWakeUp] returns [false]
    having requested [/api/wake] alone, and
    [/api/trigger-wake?token=...] is never attempted. *)
Theorem triggerWakeUp_error_status_skips_fallback cfg f w :
  triggerWakeUp cfg (http 503 no_data) f w
  = (Normal false, add_events [EvFetch (wake_request cfg)] w)
  /\ requested (trigger_wake_request cfg)
       (trace (exec (triggerWakeUp cfg (http 503 no_data) f) w))
     = requested (trigger_wake_request cfg) (trace w).
Proof.
  split; [reflexivity|].
  unfold exec. simpl. rewrite requested_app.
  assert (H : requested (trigger_wake_request cfg)
                [EvFetch (wake_request cfg)] = 0) by read_trace.
  rewrite H. lia.
Qed.

(** * Keep-alive *)

(** C7.  A keep-alive ping sent from a render in [ready]: when the
    request resolves, with whatever status, no state variable changes
    and no cycle is started; when it is rejected (network error or
    timed_out), the state becomes [checking] and [wakeUpServer] is invoked,
    which clears the connection error, counts the attempt and issues its
    first probe. *)
Theorem sendKeepAlive_ready cfg r o w :
  serverStatus r = ready ->
  let w' := exec (sendKeepAlive cfg r o) w in
  result (sendKeepAlive cfg r o) w = Normal tt
  /\ match o with
     | Resolved resp =>
         same_state w w'
         /\ cycles w' = cycles w
         /\ trace w'
            = (trace w ++ [EvFetch (keep_alive_request cfg);
                           EvLog "❤️ Keep-alive sent" ""])%list
     | Rejected e =>
         serverStatus w' = checking
         /\ cycles w' = (cycles w ++ [AwaitProbe 0])%list
         /\ connectionError w' = None
         /\ wakeAttempts w' = S (wakeAttempts w)
         /\ messages w' = messages w
         /\ trace w'
            = (trace w
               ++ [EvFetch (keep_alive_request cfg);
                   EvLog "Keep-alive failed (server might be sleeping):"
                         (message e);
                   EvFetch (health_probe_request cfg)])%list
     end.
Proof.
  intros Hr. unfold exec, result, sendKeepAlive. rewrite Hr. simpl.
  destruct o as [e|resp]; simpl.
  - repeat split; try reflexivity.
    + apply Nat.add_1_r.
    + repeat rewrite <- app_assoc. reflexivity.
  - unfold same_state. simpl. repeat split.
    rewrite <- app_assoc. reflexivity.
Qed.

(** [sendKeepAlive_ready] at a component in [ready]: an HTTP 500 answer
    changes nothing, a timeout demotes to [checking]. *)
Lemma sendKeepAlive_ready_witness :
  serverStatus (chatting "" IdNull) = ready
  /\ same_state (chatting "" IdNull)
       (exec (sendKeepAlive default_config (chatting "" IdNull)
                (http 500 no_data))
             (chatting "" IdNull))
  /\ serverStatus
       (exec (sendKeepAlive default_config (chatting "" IdNull) timed_out)
             (chatting "" IdNull))
     = checking.
Proof.
  split; [reflexivity|]. split.
  - exact (proj1 (proj2 (sendKeepAlive_ready default_config
                           (chatting "" IdNull) (http 500 no_data)
                           (chatting "" IdNull) eq_refl))).
  - exact (proj1 (proj2 (sendKeepAlive_ready default_config
                           (chatting "" IdNull) timed_out
                           (chatting "" IdNull) eq_refl))).
Defined.

(** * Timeouts of the requests *)

(** Seven of the eight calls of [fetch] pass the signal of an
    [AbortController] armed with a timer. *)
Lemma requests_with_timeout cfg s i :
  Forall (fun q => exists ms, signal q = Some ms /\ (0 < ms)%Z)
    [ keep_alive_request cfg; health_check_request cfg; wake_request cfg;
      health_probe_request cfg; session_init_request cfg;
      chat_request cfg s i; leads_request cfg ].
Proof.
  repeat constructor; eexists; (split; [reflexivity|lia]).
Qed.

(** C8, at the input where it fails.  The primary wake request is
    rejected (here by its own timed_out): the fallback request that
    [triggerWakeUp] then issues passes no [signal], so nothing bounds the
    time it may stay pending. *)
Theorem triggerWakeUp_fallback_without_signal cfg f w :
  In (EvFetch (trigger_wake_request cfg))
     (trace (exec (triggerWakeUp cfg timed_out f) w))
  /\ signal (trigger_wake_request cfg) = None.
Proof.
  split; [|reflexivity].
  unfold exec, triggerWakeUp, try_catch, bind, fetch, console_log.
  destruct f as [e'|r']; simpl; [|destruct (ok r'); simpl];
    repeat rewrite <- app_assoc; simpl;
    apply in_or_app; right; simpl; auto.
Qed.

(** * Session negotiation *)

(** C9 fails at this input: the component is [ready] anew with the
    session id ["abc123"] of before the sleep in its state; the
    acquisition run on this entry into [ready] times out; the state stays
    [ready], and the next chat request carries ["abc123"], which is
    neither [null] nor absent. *)
Lemma initSession_failure_stale_session_id :
  let w := woken_up_again default_config in
  let w1 := exec (initSession default_config w timed_out) w in
  let w2 := exec (setInput "are you there") w1 in
  let w3 := exec (sendMessage default_config w2 (http 200 no_data) "t4" "t5")
                 w2 in
  serverStatus w = ready
  /\ session_fails timed_out = true
  /\ serverStatus w1 = ready
  /\ sent_session_ids (skipn (List.length (trace w2)) (trace w3))
     = [IdStr "abc123"]
  /\ forallb null_or_absent
       (sent_session_ids (skipn (List.length (trace w2)) (trace w3)))
     = false.
Proof.
  repeat split; vm_compute; reflexivity.
Qed.

(** C9, as amended.  When the acquisition fails in a render in [ready],
    the error is logged and no state variable changes: the state is not
    demoted and the session id stays what it was.  A chat request sent
    afterwards is not held back and carries that id, hence [null] when no
    id was ever stored. *)
Theorem initSession_failure_changes_no_state cfg r o w :
  serverStatus r = ready ->
  session_fails o = true ->
  let w' := exec (initSession cfg r o) w in
  result (initSession cfg r o) w = Normal tt
  /\ same_state w w'
  /\ cycles w' = cycles w
  /\ (exists e,
        trace w'
        = (trace w ++ [EvFetch (session_init_request cfg);
                       EvError "Session init error:" e])%list)
  /\ (forall o2 t1 t2,
        String.eqb (trim (input w')) "" = false ->
        serverStatus w' = ready ->
        loading w' = false ->
        exists rest,
          trace (exec (sendMessage cfg w' o2 t1 t2) w')
          = (trace w'
             ++ EvFetch (chat_request cfg (trim (input w')) (sessionId w))
             :: rest)%list)
  /\ (sessionId w = IdNull -> sessionId w' = IdNull).
Proof.
  intros Hr Hf.
  assert (Hs : same_state w (exec (initSession cfg r o) w)
               /\ cycles (exec (initSession cfg r o) w) = cycles w
               /\ result (initSession cfg r o) w = Normal tt
               /\ exists e,
                    trace (exec (initSession cfg r o) w)
                    = (trace w ++ [EvFetch (session_init_request cfg);
                                   EvError "Session init error:" e])%list).
  { unfold exec, result, initSession. rewrite Hr. simpl.
    destruct o as [e|[st [msg|d]]]; simpl in Hf; try discriminate;
      unfold same_state; simpl; repeat split;
      eexists; rewrite <- app_assoc; reflexivity. }
  destruct Hs as (Hsame & Hc & Hres & He).
  simpl. repeat split; try apply Hsame; auto.
  - intros o2 t1 t2 Hi Hrd Hl.
    destruct (sendMessage_guard_passes cfg _ t1 t2 Hi Hrd Hl o2
                (exec (initSession cfg r o) w)) as [rest Hrest].
    exists rest. rewrite Hrest.
    destruct Hsame as (_ & _ & _ & _ & Hsid & _). rewrite Hsid. reflexivity.
  - intros Hn. destruct Hsame as (_ & _ & _ & _ & Hsid & _).
    rewrite Hsid. exact Hn.
Qed.

(** [initSession_failure_changes_no_state] at a component in [ready]
    without a session id, the request timing out. *)
Lemma initSession_failure_changes_no_state_witness :
  serverStatus (chatting "hi" IdNull) = ready
  /\ session_fails timed_out = true
  /\ same_state (chatting "hi" IdNull)
       (exec (initSession default_config (chatting "hi" IdNull) timed_out)
             (chatting "hi" IdNull)).
Proof.
  split; [reflexivity|]. split; [reflexivity|].
  exact (proj1 (proj2 (initSession_failure_changes_no_state default_config
                         (chatting "hi" IdNull) timed_out (chatting "hi" IdNull)
                         eq_refl eq_refl))).
Defined.

(** * Entering [ready] *)

(** [checkServerHealth] moves the store into [ready] only on a 2xx
    response, and then leaves its own welcome message alone in the
    chat. *)
Lemma checkServerHealth_into_ready cfg r o t w :
  serverStatus w <> ready ->
  serverStatus (exec (checkServerHealth cfg r o t) w) = ready ->
  messages (exec (checkServerHealth cfg r o t) w) = [health_welcome t]
  /\ result (checkServerHealth cfg r o t) w = Normal true
  /\ exists resp, o = Resolved resp /\ ok resp = true.
Proof.
  intros Hn. unfold exec, result, checkServerHealth, try_catch, bind, fetch,
    settle, console_log.
  destruct o as [e|resp]; simpl.
  - intros H. contradiction.
  - destruct (ok resp) eqn:Hok; simpl.
    + destruct (ServerStatus_eqb (serverStatus r) ready); simpl.
      * intros H. contradiction.
      * intros _. repeat split. exists resp. auto.
    + intros H. contradiction.
Qed.

(** C10.  A successful probe of [wakeUpServer] (a 2xx answer with a
    JSON body) always sets the state to [ready] and replaces the message
    list, whatever it held, by the welcome message alone; so does a 2xx
    answer to [checkServerHealth] called from a render that is not in
    [ready], with its own welcome message.  These are the only ways into
    [ready]: whenever a resumption of [wakeUpServer] or a call of
    [checkServerHealth] takes the state from another value into
    [ready], the probe succeeded and the list afterwards is the welcome
    message alone; and a cycle whose first [k] probes throw and whose
    next probe succeeds returns [true] in [ready] with the welcome
    message alone, as does any cycle that returns [true]. *)
Theorem ready_by_probe_replaces_messages cfg :
  (forall r o p f t w,
     succeeds o = true ->
     result (resume cfg (AwaitProbe r) o p f t) w = Normal (Returned true)
     /\ serverStatus (exec (resume cfg (AwaitProbe r) o p f t) w) = ready
     /\ messages (exec (resume cfg (AwaitProbe r) o p f t) w) = [welcome t])
  /\ (forall r resp t w,
        serverStatus r <> ready ->
        ok resp = true ->
        result (checkServerHealth cfg r (Resolved resp) t) w = Normal true
        /\ serverStatus (exec (checkServerHealth cfg r (Resolved resp) t) w)
           = ready
        /\ messages (exec (checkServerHealth cfg r (Resolved resp) t) w)
           = [health_welcome t])
  /\ (forall net k w,
        (k <= 4)%nat ->
        (forall i, (i < k)%nat -> throws (probe net i) = true) ->
        succeeds (probe net k) = true ->
        exists w',
          wakeUpServer cfg net 9 w = Some (Normal true, w')
          /\ serverStatus w' = ready
          /\ messages w' = [welcome (now net)])
  /\ (forall c o p f t w c' w',
        resume cfg c o p f t w = (Normal c', w') ->
        serverStatus w <> ready ->
        serverStatus w' = ready ->
        succeeds o = true /\ messages w' = [welcome t])
  /\ (forall net fuel w w',
        wakeUpServer cfg net fuel w = Some (Normal true, w') ->
        serverStatus w' = ready /\ messages w' = [welcome (now net)])
  /\ (forall r o t w,
        serverStatus w <> ready ->
        serverStatus (exec (checkServerHealth cfg r o t) w) = ready ->
        messages (exec (checkServerHealth cfg r o t) w) = [health_welcome t]
        /\ serverStatus r <> ready
        /\ resolved_ok o = true).
Proof.
  split; [|split; [|split; [|split; [|split]]]].
  - intros r o p f t w Hs. unfold result, exec.
    rewrite (resume_succeeds cfg p f t r o w Hs). repeat split.
  - intros r resp t w Hr Hok.
    unfold result, exec, checkServerHealth, try_catch, bind, fetch, settle.
    simpl. rewrite Hok.
    destruct (serverStatus r); try contradiction; repeat split.
  - intros net k w Hk Hthrow Hsucc.
    destruct (wakeUpServer_throws_then_succeeds cfg net k w Hk Hthrow Hsucc)
      as (w' & Hrun & Hst & _ & Hm & _).
    exists w'. auto.
  - intros c o p f t w c' w' Hres Hn Hr.
    destruct (resume_into_ready cfg c o p f t w)
      as (c0 & w0 & Hres0 & _ & Hready).
    rewrite Hres0 in Hres. inversion Hres; subst.
    destruct (Hready Hn Hr) as [-> Hs]. split; [exact Hs|reflexivity].
  - intros net fuel w w' H. unfold wakeUpServer in H.
    rewrite wakeUpServer_start_eq in H.
    apply drive_true in H; [|discriminate].
    destruct H as [w0 ->]. split; reflexivity.
  - intros r o t w Hn Hr.
    destruct (checkServerHealth_into_ready cfg r o t w Hn Hr)
      as (Hm & _ & resp & -> & Hok).
    split; [exact Hm|]. split; [|exact Hok].
    intros Hrr. revert Hr.
    unfold exec, checkServerHealth, try_catch, bind, fetch, settle.
    simpl. rewrite Hok, Hrr. simpl. exact Hn.
Qed.

(** [ready_by_probe_replaces_messages] at a chat of three messages gone
    [waking]: a successful probe of [wakeUpServer], and a 2xx answer to
    [checkServerHealth] called from that render, each enter [ready] and
    leave their welcome message alone. *)
Lemma ready_by_probe_replaces_messages_witness :
  let w := exec (sendMessage default_config (chatting "hi" IdNull) timed_out
                             "t1" "t2")
                (chatting "hi" IdNull) in
  let w1 := exec (resume default_config (AwaitProbe 0) (http 200 no_data)
                         timed_out timed_out "t3") w in
  let w2 := exec (checkServerHealth default_config w
                    (Resolved {| status := 200; body := JsonObj no_data |})
                    "t4") w in
  serverStatus w <> ready
  /\ List.length (messages w) = 3
  /\ succeeds (http 200 no_data) = true
  /\ ok {| status := 200; body := JsonObj no_data |} = true
  /\ (serverStatus w1 = ready /\ messages w1 = [welcome "t3"])
  /\ (serverStatus w2 = ready /\ messages w2 = [health_welcome "t4"])
  /\ (succeeds (http 200 no_data) = true /\ messages w1 = [welcome "t3"])
  /\ (messages w2 = [health_welcome "t4"]
      /\ serverStatus w <> ready
      /\ resolved_ok (Resolved {| status := 200; body := JsonObj no_data |})
         = true).
Proof.
  cbv zeta.
  assert (Hn : serverStatus
                 (exec (sendMessage default_config (chatting "hi" IdNull)
                                    timed_out "t1" "t2")
                       (chatting "hi" IdNull)) <> ready)
    by (vm_compute; discriminate).
  split; [exact Hn|]. split; [reflexivity|]. split; [reflexivity|].
  split; [reflexivity|].
  split.
  { exact (proj2 (proj1 (ready_by_probe_replaces_messages default_config)
                    0 (http 200 no_data) timed_out timed_out "t3"
                    (exec (sendMessage default_config (chatting "hi" IdNull)
                                       timed_out "t1" "t2")
                          (chatting "hi" IdNull))
                    eq_refl)). }
  split.
  { exact (proj2 (proj1 (proj2 (ready_by_probe_replaces_messages
                                  default_config))
                    (exec (sendMessage default_config (chatting "hi" IdNull)
                                       timed_out "t1" "t2")
                          (chatting "hi" IdNull))
                    {| status := 200; body := JsonObj no_data |} "t4"
                    (exec (sendMessage default_config (chatting "hi" IdNull)
                                       timed_out "t1" "t2")
                          (chatting "hi" IdNull))
                    Hn eq_refl)). }
  split.
  { refine (proj1 (proj2 (proj2 (proj2 (ready_by_probe_replaces_messages
                                          default_config))))
              (AwaitProbe 0) (http 200 no_data) timed_out timed_out "t3"
              (exec (sendMessage default_config (chatting "hi" IdNull)
                                 timed_out "t1" "t2")
                    (chatting "hi" IdNull))
              (Returned true) _ _ Hn _); reflexivity. }
  { refine (proj2 (proj2 (proj2 (proj2 (proj2
              (ready_by_probe_replaces_messages default_config)))))
              (exec (sendMessage default_config (chatting "hi" IdNull)
                                 timed_out "t1" "t2")
                    (chatting "hi" IdNull))
              (Resolved {| status := 200; body := JsonObj no_data |}) "t4"
              (exec (sendMessage default_config (chatting "hi" IdNull)
                                 timed_out "t1" "t2")
                    (chatting "hi" IdNull))
              Hn _); reflexivity. }
Defined.

(** * Further properties of the reconnection cycle *)

Lemma delays_of_ticks cfg (t : list Event) :
  delays t = tick_delays (ticks cfg t).
Proof.
  induction t as [|e t IH]; [reflexivity|].
  change (e :: t) with ([e] ++ t)%list.
  rewrite delays_app, ticks_app. unfold tick_delays in *.
  rewrite flat_map_app, <- IH. f_equal.
  destruct e as [q|ms|a b|a b]; simpl; try reflexivity.
  destruct (Request_eq_dec q (health_probe_request cfg)); reflexivity.
Qed.

Lemma delays_probe cfg : delays [EvFetch (health_probe_request cfg)] = [].
Proof. reflexivity. Qed.

Lemma requested_wake_probe cfg :
  requested (wake_request cfg) [EvFetch (health_probe_request cfg)] = 0.
Proof. read_trace. Qed.

Section AnyRun.
Variable cfg : Config.
Variable net : Net.

(** Whatever the probes answer, a cycle that returns from a suspended
    state has awaited the next delays of the schedule, in order and each
    once, and has asked for [/api/wake] only if it started at
    [retries = 0], and then at most once. *)
Lemma drive_any_run fuel : forall n c w res w',
  reachable_cycle c ->
  drive cfg net fuel n c w = Some (res, w') ->
  exists b j x,
    res = Normal b
    /\ (retries_of c + j <= 4)%nat
    /\ delays (trace w')
       = (delays (trace w) ++ map waitTime (seq (S (retries_of c)) j))%list
    /\ requested (wake_request cfg) (trace w')
       = requested (wake_request cfg) (trace w) + x
    /\ (x <= if (retries_of c =? 0)%nat then 1 else 0)%nat
    /\ (b = false ->
        (retries_of c + j = 4)%nat
        /\ x = (if (retries_of c =? 0)%nat then 1 else 0)
        /\ serverStatus w' = error
        /\ connectionError w'
           = Some "Server wake failed after multiple attempts"
        /\ messages w' = messages w
        /\ wakeAttempts w' = wakeAttempts w).
Proof.
  induction fuel as [|fuel IH]; intros n c w res w' Hc H.
  - destruct c; simpl in Hc, H; [discriminate|discriminate|contradiction].
  - destruct c as [r|r|v]; simpl in Hc; [| |contradiction].
    + cbn [drive] in H.
      destruct (probe_cases (probe net n)) as [Hs|[Ht|Hn]].
      * rewrite (resume_succeeds cfg _ _ _ r _ w Hs) in H.
        assert (E : Some (Normal true, after_success (now net) w) = Some (res, w'))
          by (destruct fuel; exact H).
        inversion E; subst. exists true, 0, 0. simpl.
        rewrite app_nil_r, Nat.add_0_r.
        repeat split; try lia; try discriminate.
        unfold maxRetries in Hc. lia.
      * destruct (resume_throws cfg (primary net) (fallback net) (now net) r
                    (probe net n) w Ht) as (evs & Hres & Hticks & Hreq).
        rewrite Hres in H.
        assert (Hd : delays evs
                     = if (S r <? maxRetries)%nat then [waitTime (S r)] else [])
          by (rewrite (delays_of_ticks cfg), Hticks;
              destruct (S r <? maxRetries)%nat; reflexivity).
        destruct (S r <? maxRetries)%nat eqn:R5.
        -- apply Nat.ltb_lt in R5.
           apply IH in H; [|simpl; lia].
           destruct H as (b & j & x & Hb & Hj & Hdel & Hq & Hx & Hfalse).
           simpl retries_of in *. simpl trace in Hdel, Hq.
           rewrite delays_app, Hd in Hdel. rewrite requested_app, Hreq in Hq.
           simpl in Hx. assert (x = 0) by lia. subst x.
           exists b, (S j), (if (r =? 0)%nat then 1 else 0).
           split; [exact Hb|]. split; [lia|].
           split; [rewrite Hdel, <- app_assoc; reflexivity|].
           split; [rewrite Hq; lia|]. split; [lia|].
           intros Hbf. destruct (Hfalse Hbf) as (Hj4 & _ & Hst & Hce & Hm & Hwa).
           simpl in Hm, Hwa. repeat split; auto; lia.
        -- apply Nat.ltb_ge in R5. unfold maxRetries in *.
           assert (r = 4) by lia. subst r.
           assert (E : Some (Normal false, after_throw 4 evs w) = Some (res, w'))
             by (destruct fuel; exact H).
           inversion E; subst. exists false, 0, 0. simpl.
           rewrite delays_app, Hd, requested_app, Hreq, !app_nil_r.
           repeat split; lia.
      * rewrite (resume_not_ok cfg _ _ _ r _ w Hn Hc) in H.
        apply IH in H; [|exact Hc].
        destruct H as (b & j & x & Hb & Hj & Hdel & Hq & Hx & Hfalse).
        simpl trace in Hdel, Hq.
        rewrite delays_app, delays_probe, app_nil_r in Hdel.
        rewrite requested_app, requested_wake_probe, Nat.add_0_r in Hq.
        exists b, j, x. repeat split; auto; apply Hfalse; assumption.
    + cbn [drive] in H.
      rewrite (resume_delay cfg _ _ _ r _ w (proj2 Hc)) in H.
      apply IH in H; [|exact (proj2 Hc)].
      destruct H as (b & j & x & Hb & Hj & Hdel & Hq & Hx & Hfalse).
      simpl trace in Hdel, Hq.
      rewrite delays_app, delays_probe, app_nil_r in Hdel.
      rewrite requested_app, requested_wake_probe, Nat.add_0_r in Hq.
      exists b, j, x. repeat split; auto; apply Hfalse; assumption.
Qed.

(** The same for a whole invocation, from its first statement on. *)
Lemma wakeUpServer_any_run fuel w res w' :
  wakeUpServer cfg net fuel w = Some (res, w') ->
  exists b j x,
    res = Normal b
    /\ (j <= 4)%nat
    /\ delays (trace w')
       = (delays (trace w) ++ firstn j [3000; 6000; 12000; 24000]%Z)%list
    /\ requested (wake_request cfg) (trace w')
       = requested (wake_request cfg) (trace w) + x
    /\ (x <= 1)%nat
    /\ (b = false ->
        j = 4 /\ x = 1
        /\ serverStatus w' = error
        /\ connectionError w'
           = Some "Server wake failed after multiple attempts"
        /\ messages w' = messages w
        /\ wakeAttempts w' = S (wakeAttempts w)).
Proof.
  unfold wakeUpServer. rewrite wakeUpServer_start_eq. intros H.
  apply drive_any_run in H; [|simpl; unfold maxRetries; lia].
  destruct H as (b & j & x & Hb & Hj & Hdel & Hq & Hx & Hfalse).
  simpl retries_of in *. simpl trace in Hdel, Hq.
  rewrite delays_app, delays_probe, app_nil_r in Hdel.
  rewrite requested_app, requested_wake_probe, Nat.add_0_r in Hq.
  simpl in Hj, Hx.
  exists b, j, x. split; [exact Hb|]. split; [exact Hj|].
  split.
  { rewrite Hdel. f_equal.
    assert (j = 0 \/ j = 1 \/ j = 2 \/ j = 3 \/ j = 4) as [|[|[|[|]]]] by lia;
      subst; reflexivity. }
  split; [exact Hq|]. split; [exact Hx|].
  intros Hbf. destruct (Hfalse Hbf) as (Hj4 & Hx1 & Hst & Hce & Hm & Hwa).
  simpl in Hm, Hwa. repeat split; auto.
  rewrite Hwa. apply Nat.add_1_r.
Qed.
End AnyRun.

(** X1.  Whatever the probes answer (2xx, another status, rejection,
    timeout, a body that is not JSON, in any order), an invocation of
    [wakeUpServer] that returns does so without throwing, has awaited a
    prefix of the delays 3000, 6000, 12000, 24000 ms in that order, each
    at most once (the 48 s of the comment on line 211 is never awaited),
    and has invoked [triggerWakeUp] at most once. *)
Theorem wakeUpServer_stays_on_schedule cfg net fuel w res w' :
  wakeUpServer cfg net fuel w = Some (res, w') ->
  exists b j x,
    res = Normal b
    /\ (j <= 4)%nat
    /\ delays (trace w')
       = (delays (trace w) ++ firstn j [3000; 6000; 12000; 24000]%Z)%list
    /\ requested (wake_request cfg) (trace w')
       = requested (wake_request cfg) (trace w) + x
    /\ (x <= 1)%nat.
Proof.
  intros H.
  destruct (wakeUpServer_any_run cfg net fuel w res w' H)
    as (b & j & x & Hb & Hj & Hd & Hq & Hx & _).
  exists b, j, x. auto.
Qed.

(** [wakeUpServer_stays_on_schedule] at a cold start that sees a
    timeout, an HTTP 503, a second timeout and then a success. *)
Lemma wakeUpServer_stays_on_schedule_witness :
  exists res w',
    wakeUpServer default_config
      (net_of [timed_out; http 503 no_data; timed_out; http 200 no_data]
              timed_out)
      9 initial
    = Some (res, w')
    /\ exists b j x,
         res = Normal b
         /\ (j <= 4)%nat
         /\ delays (trace w')
            = (delays (trace initial)
               ++ firstn j [3000; 6000; 12000; 24000]%Z)%list
         /\ requested (wake_request default_config) (trace w')
            = requested (wake_request default_config) (trace initial) + x
         /\ (x <= 1)%nat.
Proof.
  eexists. eexists. split.
  - vm_compute. reflexivity.
  - apply (wakeUpServer_stays_on_schedule default_config
             (net_of [timed_out; http 503 no_data; timed_out; http 200 no_data]
                     timed_out)
             9 initial).
    vm_compute. reflexivity.
Defined.



(** X4.  When the first five probes all throw (rejected, timed out, or
    a 2xx answer whose body is not JSON), [wakeUpServer] returns [false]
    with the state [error]: five probes, with the delays 3000, 6000,
    12000, 24000 ms between them, none before the first probe and none
    after the fifth, and one invocation of [triggerWakeUp]. *)
Theorem wakeUpServer_five_throws_backoff cfg net w :
  (forall i, (i < 5)%nat -> throws (probe net i) = true) ->
  exists w',
    wakeUpServer cfg net 9 w = Some (Normal false, w')
    /\ serverStatus w' = error
    /\ ticks cfg (trace w')
       = (ticks cfg (trace w)
          ++ [Probe; Delay 3000; Probe; Delay 6000; Probe; Delay 12000;
              Probe; Delay 24000; Probe])%list
    /\ delays (trace w')
       = (delays (trace w) ++ [3000; 6000; 12000; 24000]%Z)%list
    /\ requested (wake_request cfg) (trace w')
       = requested (wake_request cfg) (trace w) + 1.
Proof.
  intros H.
  destruct (wakeUpServer_all_throw cfg net w H)
    as (w' & Hrun & Hs & _ & Ht & Hq).
  exists w'. repeat split; auto.
  rewrite !(delays_of_ticks cfg), Ht. unfold tick_delays.
  rewrite flat_map_app. reflexivity.
Qed.

(** [wakeUpServer_five_throws_backoff] at a backend that never answers
    in time. *)
Lemma wakeUpServer_five_throws_backoff_witness :
  (forall i, (i < 5)%nat -> throws (probe (net_of [] timed_out) i) = true)
  /\ exists w',
       wakeUpServer default_config (net_of [] timed_out) 9 initial
       = Some (Normal false, w')
       /\ serverStatus w' = error
       /\ ticks default_config (trace w')
          = (ticks default_config (trace initial)
             ++ [Probe; Delay 3000; Probe; Delay 6000; Probe; Delay 12000;
                 Probe; Delay 24000; Probe])%list
       /\ delays (trace w')
          = (delays (trace initial) ++ [3000; 6000; 12000; 24000]%Z)%list
       /\ requested (wake_request default_config) (trace w')
          = requested (wake_request default_config) (trace initial) + 1.
Proof.
  assert (H : forall i, (i < 5)%nat ->
            throws (probe (net_of [] timed_out) i) = true).
  { intros i _. simpl. destruct i; reflexivity. }
  split; [exact H|].
  exact (wakeUpServer_five_throws_backoff default_config
           (net_of [] timed_out) initial H).
Defined.

Section ErrorText.
Variable cfg : Config.
Variable net : Net.

Local Opaque string_of_nat.

End ErrorText.



(** * Further properties of the other functions *)

(** X6.  [triggerWakeUp] never throws and changes no state variable.  It
    returns [true] exactly when the primary request resolved with a 2xx
    status, or was rejected and the fallback resolved with a 2xx status;
    it asks for [/api/wake] once, and for [/api/trigger-wake] after that
    exactly when the primary request was rejected. *)
Theorem triggerWakeUp_result cfg p f w :
  result (triggerWakeUp cfg p f) w
  = Normal (resolved_ok p || (rejected p && resolved_ok f))
  /\ same_state w (exec (triggerWakeUp cfg p f) w)
  /\ cycles (exec (triggerWakeUp cfg p f) w) = cycles w
  /\ requests (trace (exec (triggerWakeUp cfg p f) w))
     = (requests (trace w)
        ++ wake_request cfg
           :: (if rejected p then [trigger_wake_request cfg] else []))%list.
Proof.
  unfold result, exec, triggerWakeUp, try_catch, bind, fetch, console_log,
    same_state.
  destruct p as [e|r]; simpl;
    [ destruct f as [e'|r']; simpl; [| destruct (ok r'); simpl ]
    | destruct (ok r); simpl ];
    repeat split;
    repeat rewrite requests_app; simpl; repeat rewrite <- app_assoc;
    reflexivity.
Qed.

(** X7.  [checkServerHealth] never throws and returns [true] exactly
    when the request resolved with a 2xx status.  It issues one request,
    starts no reconnection cycle and never demotes: either no state
    variable changes, or the state becomes [ready] and the chat is
    replaced by the welcome-back message, while the attempt counter, the
    progress text and the session id stay as they were. *)
Theorem checkServerHealth_result cfg r o t w :
  let w' := exec (checkServerHealth cfg r o t) w in
  result (checkServerHealth cfg r o t) w = Normal (resolved_ok o)
  /\ requests (trace w')
     = (requests (trace w) ++ [health_check_request cfg])%list
  /\ cycles w' = cycles w
  /\ wakeAttempts w' = wakeAttempts w
  /\ connectionError w' = connectionError w
  /\ sessionId w' = sessionId w
  /\ (same_state w w'
      \/ (serverStatus w' = ready /\ messages w' = [health_welcome t]
          /\ resolved_ok o = true /\ serverStatus r <> ready)).
Proof.
  unfold result, exec, checkServerHealth, try_catch, bind, fetch, settle,
    console_log, same_state.
  destruct o as [e|resp]; simpl.
  - repeat rewrite requests_app. simpl. rewrite <- app_assoc.
    repeat split. left. repeat split.
  - destruct (ok resp) eqn:Hok; simpl.
    + destruct (serverStatus r) eqn:Hr; simpl;
        repeat rewrite requests_app; simpl; repeat split;
        try (left; repeat split; fail);
        right; repeat split; discriminate.
    + repeat rewrite requests_app. simpl. repeat split. left. repeat split.
Qed.

(** X8.  Called from a render in [ready], which is where the 5-minute
    timer is created, [checkServerHealth] changes no state variable and
    starts no reconnection cycle whatever the answer: a failed re-check
    is only logged. *)
Theorem checkServerHealth_from_ready_is_advisory cfg r o t w :
  serverStatus r = ready ->
  same_state w (exec (checkServerHealth cfg r o t) w)
  /\ cycles (exec (checkServerHealth cfg r o t) w) = cycles w.
Proof.
  intros Hr.
  unfold exec, checkServerHealth, try_catch, bind, fetch, settle,
    console_log, same_state.
  rewrite Hr.
  destruct o as [e|resp]; simpl; [repeat split|].
  destruct (ok resp); simpl; repeat split.
Qed.

(** [checkServerHealth_from_ready_is_advisory] at a timed-out re-check
    of a chatting component. *)
Lemma checkServerHealth_from_ready_is_advisory_witness :
  serverStatus (chatting "" IdNull) = ready
  /\ same_state (chatting "" IdNull)
       (exec (checkServerHealth default_config (chatting "" IdNull)
                                timed_out "t")
             (chatting "" IdNull))
  /\ cycles (exec (checkServerHealth default_config (chatting "" IdNull)
                                     timed_out "t")
                  (chatting "" IdNull))
     = cycles (chatting "" IdNull).
Proof.
  split; [reflexivity|].
  exact (checkServerHealth_from_ready_is_advisory default_config
           (chatting "" IdNull) timed_out "t" (chatting "" IdNull) eq_refl).
Defined.

(** X9.  [initSession] does not look at the status of the response: any
    answer with a JSON body, an error status included, stores the
    [sessionId] property of the body, [undefined] when the body has
    none, over the id held before; nothing is logged and nothing else
    changes. *)
Theorem initSession_stores_whatever_the_body_holds cfg r st d w :
  serverStatus r = ready ->
  initSession cfg r (Resolved {| status := st; body := JsonObj d |}) w
  = (Normal tt,
     exec (setSessionId (d_sessionId d))
          (add_events [EvFetch (session_init_request cfg)] w)).
Proof.
  intros Hr. unfold initSession. rewrite Hr. reflexivity.
Qed.

(** [initSession_stores_whatever_the_body_holds] at an HTTP 500 with an
    error body, in a component that holds the id ["abc123"]: the id is
    [undefined] afterwards. *)
Lemma initSession_stores_whatever_the_body_holds_witness :
  serverStatus (chatting "" (IdStr "abc123")) = ready
  /\ sessionId
       (exec (initSession default_config (chatting "" (IdStr "abc123"))
                (Resolved {| status := 500;
                             body := JsonObj
                               {| reply := None; d_responseTime := None;
                                  d_sessionId := IdUndefined;
                                  d_error := Some "boom" |} |}))
             (chatting "" (IdStr "abc123")))
     = IdUndefined.
Proof.
  split; [reflexivity|].
  unfold exec.
  rewrite (initSession_stores_whatever_the_body_holds default_config
             (chatting "" (IdStr "abc123")) 500 _
             (chatting "" (IdStr "abc123")) eq_refl).
  reflexivity.
Defined.

(** X10.  Keep-alive, session negotiation and chat run only from a
    render in [ready]: from any other render each of the three returns
    at once, issues no request and leaves the store as it is. *)
Theorem nothing_runs_outside_ready cfg r o t1 t2 w :
  serverStatus r <> ready ->
  sendKeepAlive cfg r o w = (Normal tt, w)
  /\ initSession cfg r o w = (Normal tt, w)
  /\ sendMessage cfg r o t1 t2 w = (Normal tt, w).
Proof.
  intros Hr. unfold sendKeepAlive, initSession, sendMessage.
  destruct (serverStatus r); try contradiction; simpl;
    rewrite ?orb_true_r; simpl; repeat split.
Qed.

(** [nothing_runs_outside_ready] at a render in [waking]. *)
Lemma nothing_runs_outside_ready_witness :
  serverStatus (exec (setServerStatus waking) (chatting "hi" IdNull)) <> ready
  /\ sendMessage default_config
       (exec (setServerStatus waking) (chatting "hi" IdNull))
       (http 200 no_data) "t1" "t2" initial
     = (Normal tt, initial).
Proof.
  assert (H : serverStatus (exec (setServerStatus waking) (chatting "hi" IdNull))
              <> ready) by discriminate.
  split; [exact H|].
  exact (proj2 (proj2 (nothing_runs_outside_ready default_config
                         (exec (setServerStatus waking) (chatting "hi" IdNull))
                         (http 200 no_data) "t1" "t2" initial H))).
Defined.

(** ** White space and the guard of [sendMessage] *)

Lemma ws_strip_shorter s rest :
  ws_strip s = Some rest -> (String.length rest < String.length s)%nat.
Proof.
  destruct s as [|a [|b [|c s3]]]; simpl; try discriminate.
  - destruct (is_space a); intros H; inversion H; subst; simpl; lia.
  - destruct (is_space a); [intros H; inversion H; subst; simpl; lia|].
    destruct (is_space2 a b); intros H; inversion H; subst; simpl; lia.
  - destruct (is_space a); [intros H; inversion H; subst; simpl; lia|].
    destruct (is_space2 a b); [intros H; inversion H; subst; simpl; lia|].
    destruct (is_space3 a b c); intros H; inversion H; subst; simpl; lia.
Qed.

(** With fuel for every byte, what is left starts with no white
    space. *)
Lemma strip_leading_done fuel : forall s,
  (String.length s <= fuel)%nat -> ws_strip (strip_leading fuel s) = None.
Proof.
  induction fuel as [|fuel IH]; intros s H.
  - destruct s; [reflexivity|simpl in H; lia].
  - simpl. destruct (ws_strip s) as [rest|] eqn:E; [|exact E].
    apply IH. apply ws_strip_shorter in E. lia.
Qed.

Lemma strip_leading_nothing fuel s :
  ws_strip s = None -> strip_leading fuel s = s.
Proof. intros H. destruct fuel; simpl; [reflexivity|rewrite H; reflexivity]. Qed.

Lemma trim_start_idempotent s : trim_start (trim_start s) = trim_start s.
Proof.
  unfold trim_start at 1. apply strip_leading_nothing.
  apply strip_leading_done. lia.
Qed.

Lemma blank_trim_start s : blank (trim_start s) = blank s.
Proof. unfold blank. rewrite trim_start_idempotent. reflexivity. Qed.

Lemma trim_end_empty s : trim_end s = "" -> blank s = true.
Proof.
  destruct s as [|c s]; [reflexivity|]. simpl.
  destruct (blank (String c s)); [reflexivity|discriminate].
Qed.

(** [input.trim()] is empty exactly for an input of white space only. *)
Lemma trim_empty_iff_blank s : String.eqb (trim s) "" = blank s.
Proof.
  destruct (blank s) eqn:Hb.
  - unfold blank in Hb. apply String.eqb_eq in Hb.
    unfold trim. rewrite Hb. reflexivity.
  - apply String.eqb_neq. intros H. unfold trim in H.
    apply trim_end_empty in H. rewrite blank_trim_start in H. congruence.
Qed.

Lemma screen_chat_ready r : screen r = ChatScreen <-> serverStatus r = ready.
Proof.
  unfold screen. destruct (serverStatus r); split; intros H;
    try reflexivity; discriminate.
Qed.

(** X11.  [sendMessage] returns at once, with no request sent and not
    one state variable changed, exactly when the input holds only white
    space as [trim] strips it (the empty input included; tab, line feed,
    space, U+00A0, U+2028, U+FEFF and the other white-space characters
    of ECMAScript), or the render is not in [ready], or an exchange is
    still loading. *)
Theorem sendMessage_skips_iff_guard cfg r o t1 t2 w :
  sendMessage cfg r o t1 t2 w = (Normal tt, w)
  <-> (blank (input r) = true \/ serverStatus r <> ready \/ loading r = true).
Proof.
  split.
  - intros H.
    destruct (blank (input r)) eqn:Hb; [auto|].
    destruct (ServerStatus_eqb (serverStatus r) ready) eqn:Hs;
      [|right; left; intros E; rewrite E in Hs; discriminate].
    destruct (loading r) eqn:Hl; [auto|].
    exfalso.
    assert (Hr : serverStatus r = ready)
      by (destruct (serverStatus r); try discriminate; reflexivity).
    rewrite <- trim_empty_iff_blank in Hb.
    destruct (sendMessage_guard_passes cfg r t1 t2 Hb Hr Hl o w)
      as [rest Hrest].
    unfold exec in Hrest. rewrite H in Hrest. simpl in Hrest.
    apply (f_equal (@List.length Event)) in Hrest.
    rewrite length_app in Hrest. simpl in Hrest. lia.
  - intros H. unfold sendMessage. rewrite trim_empty_iff_blank.
    destruct H as [H|[H|H]].
    + rewrite H. reflexivity.
    + destruct (serverStatus r); try contradiction;
        rewrite ?orb_true_r; reflexivity.
    + rewrite H, !orb_true_r. reflexivity.
Qed.

Lemma exchange_guard r :
  screen r = ChatScreen -> send_disabled r = false ->
  String.eqb (trim (input r)) "" = false
  /\ serverStatus r = ready /\ loading r = false.
Proof.
  intros Hscreen Henabled.
  unfold send_disabled in Henabled. apply orb_false_iff in Henabled.
  destruct Henabled as [Hl Hi].
  split; [exact Hi|]. split; [apply screen_chat_ready; exact Hscreen|exact Hl].
Qed.

(** Unfolds an exchange whose guard has passed down to the case
    analysis on how the request settled. *)
Ltac open_exchange Hi Hr Hl :=
  unfold result, exec, sendMessage; rewrite Hi, Hr, Hl; simpl;
  unfold try_finally, try_catch, bind, fetch, settle, json, emit, ret, throw,
    setMessages, setInput, setLoading, setTypingIndicator; simpl.

(** X12.  On the chat screen with the send button enabled, take an
    exchange whose request settles in one of these ways: it is rejected;
    it is answered, under any status, with a body that is not JSON; it
    is answered, under any status, with a JSON object whose properties
    are strings or absent, its body read to the end.  Such an exchange
    does not throw: it sends one chat request with the trimmed input and
    the session id of the render, appends the user's message and exactly
    one message of the agent, empties the input and ends with [loading]
    and the typing indicator off.  Either it starts a reconnection cycle
    and sets the state to [waking], or it leaves the state, the attempt
    counter and the progress text alone.  (A request or a body that
    stays pending, and a body that is JSON [null] or holds properties of
    other types, are outside [FetchResult] and outside this
    statement.) *)
Theorem sendMessage_any_answer cfg r o t_sent t_reply w :
  screen r = ChatScreen ->
  send_disabled r = false ->
  let w' := exec (sendMessage cfg r o t_sent t_reply) w in
  result (sendMessage cfg r o t_sent t_reply) w = Normal tt
  /\ loading w' = false
  /\ typingIndicator w' = false
  /\ input w' = ""
  /\ (exists m,
        messages w' = (messages w ++ [sent_message r t_sent; m])%list
        /\ sender m = ai /\ timestamp m = t_reply)
  /\ ((serverStatus w' = waking
       /\ cycles w' = (cycles w ++ [AwaitProbe 0])%list
       /\ wakeAttempts w' = S (wakeAttempts w)
       /\ connectionError w' = None
       /\ requests (trace w')
          = (requests (trace w)
             ++ [chat_request cfg (trim (input r)) (sessionId r);
                 health_probe_request cfg])%list)
      \/ (serverStatus w' = serverStatus w
          /\ cycles w' = cycles w
          /\ wakeAttempts w' = wakeAttempts w
          /\ connectionError w' = connectionError w
          /\ requests (trace w')
             = (requests (trace w)
                ++ [chat_request cfg (trim (input r)) (sessionId r)])%list)).
Proof.
  intros Hscreen Henabled.
  destruct (exchange_guard r Hscreen Henabled) as (Hi & Hr & Hl).
  cbv zeta. open_exchange Hi Hr Hl.
  destruct o as [e|[st [msg|d]]]; simpl.
  - destruct (String.eqb (name e) "AbortError"
              || includes (message e) "Failed to fetch"); simpl;
      (repeat split;
       [ eexists; rewrite <- app_assoc; simpl; split; [reflexivity|split; reflexivity]
       | first [ left; repeat split; [apply Nat.add_1_r|];
                 repeat rewrite requests_app; simpl;
                 repeat rewrite <- app_assoc; reflexivity
               | right; repeat split;
                 repeat rewrite requests_app; simpl;
                 repeat rewrite <- app_assoc; rewrite ?app_nil_r; reflexivity ] ]).
  - destruct (includes msg "Failed to fetch"); simpl;
      (repeat split;
       [ eexists; rewrite <- app_assoc; simpl; split; [reflexivity|split; reflexivity]
       | first [ left; repeat split; [apply Nat.add_1_r|];
                 repeat rewrite requests_app; simpl;
                 repeat rewrite <- app_assoc; reflexivity
               | right; repeat split;
                 repeat rewrite requests_app; simpl;
                 repeat rewrite <- app_assoc; rewrite ?app_nil_r; reflexivity ] ]).
  - destruct (ok _); simpl.
    + destruct (truthy_id (d_sessionId d)); simpl;
        (repeat split;
         [ eexists; rewrite <- app_assoc; simpl; split; [reflexivity|split; reflexivity]
         | right; repeat split;
           repeat rewrite requests_app; simpl; reflexivity ]).
    + destruct ((st =? 503)%Z || (st =? 504)%Z); simpl;
        (repeat split;
         [ eexists; rewrite <- app_assoc; simpl; split; [reflexivity|split; reflexivity]
         | first [ left; repeat split; [apply Nat.add_1_r|];
                   repeat rewrite requests_app; simpl;
                   repeat rewrite <- app_assoc; reflexivity
                 | right; repeat split;
                   repeat rewrite requests_app; simpl;
                   repeat rewrite <- app_assoc; rewrite ?app_nil_r; reflexivity ] ]).
Qed.

(** [sendMessage_any_answer] at a component chatting with the session
    id ["abc123"], the request answered by HTTP 500. *)
Lemma sendMessage_any_answer_witness :
  screen (chatting "hi" (IdStr "abc123")) = ChatScreen
  /\ send_disabled (chatting "hi" (IdStr "abc123")) = false
  /\ loading (exec (sendMessage default_config (chatting "hi" (IdStr "abc123"))
                      (http 500 no_data) "t1" "t2")
                   (chatting "hi" (IdStr "abc123")))
     = false.
Proof.
  split; [reflexivity|]. split; [reflexivity|].
  exact (proj1 (proj2 (sendMessage_any_answer default_config
                         (chatting "hi" (IdStr "abc123"))
                         (http 500 no_data) "t1" "t2"
                         (chatting "hi" (IdStr "abc123"))
                         eq_refl eq_refl))).
Defined.

(** X13.  A 2xx answer with a JSON body appends the reply with its
    response time, and replaces the stored session id only when the body
    carries a non-empty one: a reply without a session id, or with an
    empty one, keeps the id in the store.  The state stays as it is and
    no reconnection starts. *)
Theorem sendMessage_reply cfg r st d t_sent t_reply w :
  screen r = ChatScreen ->
  send_disabled r = false ->
  ok {| status := st; body := JsonObj d |} = true ->
  let w' := exec (sendMessage cfg r
                    (Resolved {| status := st; body := JsonObj d |})
                    t_sent t_reply) w in
  messages w'
  = (messages w
     ++ [sent_message r t_sent;
         {| sender := ai; text := reply d; timestamp := t_reply;
            responseTime := d_responseTime d |}])%list
  /\ sessionId w'
     = (if truthy_id (d_sessionId d) then d_sessionId d else sessionId w)
  /\ serverStatus w' = serverStatus w
  /\ cycles w' = cycles w.
Proof.
  intros Hscreen Henabled Hok.
  destruct (exchange_guard r Hscreen Henabled) as (Hi & Hr & Hl).
  cbv zeta. open_exchange Hi Hr Hl. rewrite Hok.
  destruct (truthy_id (d_sessionId d)); simpl;
    rewrite <- app_assoc; repeat split.
Qed.

(** [sendMessage_reply] at a reply that carries no session id. *)
Lemma sendMessage_reply_witness :
  screen (chatting "hi" (IdStr "abc123")) = ChatScreen
  /\ send_disabled (chatting "hi" (IdStr "abc123")) = false
  /\ ok {| status := 200; body := JsonObj no_data |} = true
  /\ sessionId (exec (sendMessage default_config
                        (chatting "hi" (IdStr "abc123"))
                        (Resolved {| status := 200; body := JsonObj no_data |})
                        "t1" "t2")
                     (chatting "hi" (IdStr "abc123")))
     = IdStr "abc123".
Proof.
  split; [reflexivity|]. split; [reflexivity|]. split; [reflexivity|].
  exact (proj1 (proj2 (sendMessage_reply default_config
                         (chatting "hi" (IdStr "abc123")) 200 no_data
                         "t1" "t2" (chatting "hi" (IdStr "abc123"))
                         eq_refl eq_refl eq_refl))).
Defined.

(** ** Rendering the chat *)





Lemma resume_messages cfg c o p f t w :
  messages (exec (resume cfg c o p f t) w) = messages w
  \/ messages (exec (resume cfg c o p f t) w) = [welcome t].
Proof.
  unfold exec. destruct c as [r|r|v].
  - destruct (probe_cases o) as [H|[H|H]].
    + rewrite (resume_succeeds cfg p f t r o w H). right. reflexivity.
    + destruct (resume_throws cfg p f t r o w H) as (evs & Hres & _).
      rewrite Hres. left. reflexivity.
    + rewrite (resume_not_ok_any cfg r o p f t w H).
      destruct (loop_head_cases cfg r w) as [E|[E _]]; rewrite E;
        left; reflexivity.
  - unfold resume.
    destruct (loop_head_cases cfg r w) as [E|[E _]]; rewrite E;
      left; reflexivity.
  - left. reflexivity.
Qed.

(** X15.  No function other than [sendMessage] can put a message
    without text into the chat: resuming a reconnection cycle, a
    keep-alive ping, a health re-check, the session negotiation and a
    manual retry each leave a chat in which every message has a text,
    if it was one before. *)
Theorem texts_stay_defined cfg w :
  texts_defined (messages w) = true ->
  (forall c o p f t,
     texts_defined (messages (exec (resume cfg c o p f t) w)) = true)
  /\ (forall r o,
        texts_defined (messages (exec (sendKeepAlive cfg r o) w)) = true)
  /\ (forall r o t,
        texts_defined (messages (exec (checkServerHealth cfg r o t) w)) = true)
  /\ (forall r o,
        texts_defined (messages (exec (initSession cfg r o) w)) = true)
  /\ texts_defined (messages (exec (manualWakeUp cfg) w)) = true.
Proof.
  intros Hw. repeat split.
  - intros c o p f t.
    destruct (resume_messages cfg c o p f t w) as [E|E]; rewrite E;
      [exact Hw|reflexivity].
  - intros r o. unfold exec, sendKeepAlive.
    destruct (ServerStatus_eqb (serverStatus r) ready); simpl; [|exact Hw].
    destruct o as [e|resp]; simpl; exact Hw.
  - intros r o t.
    unfold exec, checkServerHealth, try_catch, bind, fetch, settle,
      console_log.
    destruct o as [e|resp]; simpl; [exact Hw|].
    destruct (ok resp); simpl; [|exact Hw].
    destruct (ServerStatus_eqb (serverStatus r) ready); simpl;
      [exact Hw|reflexivity].
  - intros r o. unfold exec, initSession.
    destruct (ServerStatus_eqb (serverStatus r) ready); simpl; [|exact Hw].
    destruct o as [e|[st [msg|d]]]; simpl; exact Hw.
  - exact Hw.
Qed.

(** [texts_stay_defined] at a chatting component whose keep-alive ping
    times out. *)
Lemma texts_stay_defined_witness :
  texts_defined (messages (chatting "" IdNull)) = true
  /\ texts_defined
       (messages (exec (sendKeepAlive default_config (chatting "" IdNull)
                                      timed_out)
                       (chatting "" IdNull)))
     = true.
Proof.
  split; [reflexivity|].
  exact (proj1 (proj2 (texts_stay_defined default_config (chatting "" IdNull)
                         eq_refl))
           (chatting "" IdNull) timed_out).
Defined.

Lemma split_lines_nonempty s : split_lines s <> [].
Proof.
  destruct s as [|c s]; simpl; [discriminate|].
  destruct (Ascii.eqb c "010"%char); [discriminate|].
  destruct (split_lines s); discriminate.
Qed.

(** X16.  Splitting the text of a message at line feeds, as the render
    does, loses nothing: there is at least one paragraph, and the
    paragraphs joined by line feeds are the text again. *)
Theorem split_lines_join s :
  split_lines s <> []
  /\ String.concat (String "010"%char EmptyString) (split_lines s) = s.
Proof.
  split; [apply split_lines_nonempty|].
  induction s as [|c s IH]; simpl; [reflexivity|].
  destruct (Ascii.eqb c "010"%char) eqn:Hc.
  - apply Ascii.eqb_eq in Hc. subst c.
    pose proof (split_lines_nonempty s) as Hn.
    destruct (split_lines s) as [|l ls]; [contradiction|].
    change (String.concat (String "010"%char "") ("" :: l :: ls))
      with (String "010"%char (String.concat (String "010"%char "") (l :: ls))).
    rewrite IH. reflexivity.
  - pose proof (split_lines_nonempty s) as Hn.
    destruct (split_lines s) as [|l ls]; [contradiction|].
    destruct ls as [|l' ls].
    + simpl in *. rewrite IH. reflexivity.
    + change (String.concat (String "010"%char "") (String c l :: l' :: ls))
        with (String c (l ++ String "010"%char
                          (String.concat (String "010"%char "") (l' :: ls)))).
      change (String.concat (String "010"%char "") (l :: l' :: ls))
        with (l ++ String "010"%char
                (String.concat (String "010"%char "") (l' :: ls))) in IH.
      rewrite IH. reflexivity.
Qed.

(** * The repeating timers *)

Lemma truthy_ref_some id : (1 <= id)%nat -> truthy_ref (Some id) = true.
Proof. intros H. simpl. destruct id; [lia|reflexivity]. Qed.

Lemma intervals_cleanup_clears s t :
  timers_ok s t ->
  intervals (intervals_cleanup t) = []
  /\ next_id (intervals_cleanup t) = next_id t
  /\ keepAliveInterval (intervals_cleanup t) = keepAliveInterval t
  /\ wakeCheckInterval (intervals_cleanup t) = wakeCheckInterval t.
Proof.
  intros (Hn & Hk & Hw & Hs). unfold intervals_cleanup.
  destruct (ServerStatus_eqb s ready).
  - destruct Hs as (a & b & Ea & Eb & Hab & Hi).
    rewrite Ea, (truthy_ref_some a (proj1 (Hk a Ea))). simpl wakeCheckInterval.
    rewrite Eb, (truthy_ref_some b (proj1 (Hw b Eb))).
    unfold clearInterval. simpl. rewrite Hi. simpl.
    rewrite Nat.eqb_refl. simpl.
    destruct (Nat.eqb_spec b a) as [E|E]; [congruence|]. simpl.
    rewrite Nat.eqb_refl. simpl. auto.
  - unfold clearInterval. destruct t as [k wk iv n]. simpl in *. subst iv.
    destruct k as [[|a]|]; destruct wk as [[|b]|]; simpl; auto.
Qed.

Lemma intervals_effect_ok s t :
  (1 <= next_id t)%nat ->
  (forall id, keepAliveInterval t = Some id -> (1 <= id < next_id t)%nat) ->
  (forall id, wakeCheckInterval t = Some id -> (1 <= id < next_id t)%nat) ->
  intervals t = [] ->
  timers_ok s (intervals_effect s t).
Proof.
  intros Hn Hk Hw Hi. unfold timers_ok, intervals_effect.
  destruct (ServerStatus_eqb s ready); simpl.
  - split; [lia|]. split; [intros id E; inversion E; subst; lia|].
    split; [intros id E; inversion E; subst; lia|].
    exists (next_id t), (S (next_id t)). rewrite Hi. simpl.
    repeat split. lia.
  - auto.
Qed.

Lemma next_render_ok old new t :
  timers_ok old t -> timers_ok new (next_render old new t).
Proof.
  intros H. unfold next_render.
  destruct (ServerStatus_eqb old new) eqn:E.
  - assert (old = new) by (destruct old, new; try discriminate; reflexivity).
    subst. exact H.
  - destruct (intervals_cleanup_clears old t H) as (Hi & Hn & Hk & Hw).
    destruct H as (H1 & H2 & H3 & _).
    apply intervals_effect_ok.
    + rewrite Hn. exact H1.
    + rewrite Hk, Hn. exact H2.
    + rewrite Hw, Hn. exact H3.
    + exact Hi.
Qed.

Lemma first_render_ok s : timers_ok s (first_render s).
Proof.
  apply intervals_effect_ok; simpl; try lia; try discriminate; reflexivity.
Qed.

Lemma last_cons_default {A} (l : list A) : forall a d d',
  last (a :: l) d = last (a :: l) d'.
Proof.
  induction l as [|b l IH]; intros a d d'; [reflexivity|].
  change (last (a :: b :: l) d) with (last (b :: l) d).
  change (last (a :: b :: l) d') with (last (b :: l) d').
  apply IH.
Qed.

Lemma renders_ok ss : forall s t,
  timers_ok s t ->
  timers_ok (fst (renders s ss t)) (snd (renders s ss t))
  /\ fst (renders s ss t) = last ss s.
Proof.
  induction ss as [|s' ss IH]; intros s t H; simpl.
  - auto.
  - destruct (IH s' (next_render s s' t) (next_render_ok s s' t H))
      as [Hok Hlast].
    split; [exact Hok|]. rewrite Hlast.
    destruct ss as [|s1 ss]; [reflexivity|].
    change (last (s' :: s1 :: ss) s) with (last (s1 :: ss) s).
    apply last_cons_default.
Qed.

(** X17.  After the first render and any sequence of further renders,
    whatever the states they pass through, the timers running are
    exactly the keep-alive ping every 600000 ms and the health re-check
    every 300000 ms when the last render is in [ready], and none at all
    otherwise: re-entering [ready] never leaves a timer of an earlier
    stay running, and leaving [ready] stops both. *)
Theorem timers_follow_ready s0 ss :
  let s := fst (renders s0 ss (first_render s0)) in
  let t := snd (renders s0 ss (first_render s0)) in
  s = last ss s0
  /\ running t
     = (if ServerStatus_eqb s ready
        then [(cbSendKeepAlive, 600000%Z); (cbCheckServerHealth, 300000%Z)]
        else []).
Proof.
  cbv zeta.
  destruct (renders_ok ss s0 (first_render s0) (first_render_ok s0))
    as [(_ & _ & _ & Hs) Hlast].
  split; [exact Hlast|]. unfold running.
  destruct (ServerStatus_eqb (fst (renders s0 ss (first_render s0))) ready).
  - destruct Hs as (a & b & _ & _ & _ & Hi). rewrite Hi. reflexivity.
  - rewrite Hs. reflexivity.
Qed.

(** X18.  Removing the component stops every timer, at whatever point
    of its life: after the cleanups of the two effects none is left
    running. *)
Theorem unmount_stops_all_timers s0 ss :
  intervals (unmount (snd (renders s0 ss (first_render s0)))) = [].
Proof.
  destruct (renders_ok ss s0 (first_render s0) (first_render_ok s0))
    as [Hok _].
  destruct (intervals_cleanup_clears _ _ Hok) as (Hi & _).
  unfold unmount, mount_cleanup, clearInterval.
  destruct (intervals_cleanup _) as [k wk iv n]. simpl in *. subst iv.
  destruct k as [[|a]|]; reflexivity.
Qed.

(** * The theme *)

(** X19.  After [toggleTheme] the theme is ['light'] or ['dark'], and
    the state variable, [localStorage] and the [data-theme] attribute
    agree on it; a fresh component loaded with that [localStorage]
    comes up with the same theme in its state and on the document. *)
Theorem toggleTheme_persists t :
  let t' := toggleTheme t in
  let reloaded := load_theme (fresh_theme (stored_theme t')) in
  (theme t' = "light" \/ theme t' = "dark")
  /\ stored_theme t' = Some (theme t')
  /\ data_theme t' = Some (theme t')
  /\ theme reloaded = theme t'
  /\ data_theme reloaded = Some (theme t').
Proof.
  unfold toggleTheme, load_theme, fresh_theme. simpl.
  destruct (String.eqb (theme t) "light"); simpl; auto 10.
Qed.

(** X20.  Toggling twice gives back ['light'] or ['dark'], whichever
    was set; from any other theme (one read from [localStorage] that is
    neither) the first toggle gives ['light'], so such a theme is never
    seen again, and three toggles always equal one. *)
Theorem toggleTheme_twice t :
  toggleTheme (toggleTheme (toggleTheme t)) = toggleTheme t
  /\ ((theme t = "light" \/ theme t = "dark") ->
      theme (toggleTheme (toggleTheme t)) = theme t)
  /\ (theme t <> "light" -> theme (toggleTheme t) = "light")
  /\ (forall saved, saved <> "" ->
        theme (load_theme (fresh_theme (Some saved))) = saved).
Proof.
  unfold toggleTheme, load_theme, fresh_theme. simpl. repeat split.
  - destruct (String.eqb (theme t) "light"); reflexivity.
  - intros [H|H]; rewrite H; reflexivity.
  - intros H. destruct (String.eqb_spec (theme t) "light");
      [contradiction|reflexivity].
  - intros saved H. destruct (String.eqb_spec saved "");
      [contradiction|reflexivity].
Qed.

(** [toggleTheme_twice] at a page whose [localStorage] holds
    ['blue']. *)
Lemma toggleTheme_twice_witness :
  theme (load_theme (fresh_theme (Some "blue"))) <> "light"
  /\ theme (toggleTheme (load_theme (fresh_theme (Some "blue")))) = "light".
Proof.
  assert (H : theme (load_theme (fresh_theme (Some "blue"))) <> "light")
    by discriminate.
  split; [exact H|].
  exact (proj1 (proj2 (proj2 (toggleTheme_twice
                                (load_theme (fresh_theme (Some "blue"))))))
           H).
Defined.

(** * The list of recent leads *)

(** X21.  [loadRecentLeads] does not look at the status of the
    response: any answer with a JSON body opens the modal, with the
    [leads] of the body or with no lead when the body has none.  A
    rejected request or a body that is not JSON is only logged: the
    modal stays as it was and the list keeps the leads of the load
    before, so a failed refresh after a successful load still shows
    them. *)
Theorem loadRecentLeads_outcomes cfg v :
  (forall code leads,
     let v' := loadRecentLeads cfg (LeadsResolved code (LeadsObj leads)) v in
     showLeads v' = true
     /\ recentLeads v' = match leads with Some l => l | None => [] end
     /\ (leads_grid_shown v' = false <-> leads = None \/ leads = Some []))
  /\ (forall o,
        (match o with LeadsResolved _ (LeadsObj _) => False | _ => True end) ->
        showLeads (loadRecentLeads cfg o v) = showLeads v
        /\ recentLeads (loadRecentLeads cfg o v) = recentLeads v)
  /\ (forall code l o,
        (match o with LeadsResolved _ (LeadsObj _) => False | _ => True end) ->
        let v1 := loadRecentLeads cfg (LeadsResolved code (LeadsObj (Some l))) v in
        let v2 := loadRecentLeads cfg o v1 in
        showLeads v2 = true /\ recentLeads v2 = l)
  /\ (forall o,
        requests (leads_trace (loadRecentLeads cfg o v))
        = (requests (leads_trace v) ++ [leads_request cfg])%list).
Proof.
  repeat split.
  - destruct leads as [[|a l]|]; simpl; intros H; auto; discriminate.
  - destruct leads as [[|a l]|]; simpl; intros [H|H]; auto; discriminate.
  - destruct o as [e|code [msg|leads]]; simpl; auto; contradiction.
  - destruct o as [e|code [msg|leads]]; simpl; auto; contradiction.
  - destruct o as [e|code' [msg|leads]]; simpl; auto; contradiction.
  - destruct o as [e|code' [msg|leads]]; simpl; auto; contradiction.
  - destruct o as [e|code [msg|leads]]; simpl;
      repeat rewrite requests_app; simpl; rewrite <- ?app_assoc;
      rewrite ?app_nil_r; reflexivity.
Qed.

(** [loadRecentLeads_outcomes] at a refresh that times out after a load
    of one lead. *)
Lemma loadRecentLeads_outcomes_witness :
  (match LeadsRejected {| name := "AbortError"; message := "aborted" |} with
   | LeadsResolved _ (LeadsObj _) => False
   | _ => True
   end)
  /\ recentLeads
       (loadRecentLeads default_config
          (LeadsRejected {| name := "AbortError"; message := "aborted" |})
          (loadRecentLeads default_config
             (LeadsResolved 200
                (LeadsObj (Some [mkLead "Asha" "t" "1" "Not provided"
                                        "demo" "hi"])))
             {| showLeads := false; recentLeads := []; leads_trace := [] |}))
     = [mkLead "Asha" "t" "1" "Not provided" "demo" "hi"].
Proof.
  split; [exact I|].
  exact (proj2 (proj1 (proj2 (proj2 (loadRecentLeads_outcomes default_config
           {| showLeads := false; recentLeads := []; leads_trace := [] |})))
           200%Z [mkLead "Asha" "t" "1" "Not provided" "demo" "hi"]
           (LeadsRejected {| name := "AbortError"; message := "aborted" |})
           I)).
Defined.

(** * Retries and overlapping cycles *)

Lemma exec_bind_unit (m k : M unit) w :
  result m w = Normal tt -> exec (m ;; k) w = exec k (exec m w).
Proof.
  unfold result, exec, bind. destruct (m w) as [c w1]. simpl.
  intros ->. reflexivity.
Qed.

(** X22.  [n] manual retries in a row start [n] reconnection cycles,
    each with a probe of its own, and raise the attempt counter by [n]:
    nothing caps the counter at the five steps of the progress bar, and
    nothing holds a retry back while cycles are in flight. *)
Theorem manualWakeUp_times cfg n : forall w,
  let w' := exec (times n (manualWakeUp cfg)) w in
  wakeAttempts w' = wakeAttempts w + n
  /\ cycles w' = (cycles w ++ repeat (AwaitProbe 0) n)%list
  /\ requested (health_probe_request cfg) (trace w')
     = requested (health_probe_request cfg) (trace w) + n
  /\ messages w' = messages w.
Proof.
  induction n as [|n IH]; intros w; cbv zeta.
  - simpl. rewrite !Nat.add_0_r, app_nil_r. auto.
  - cbn [times]. rewrite exec_bind_unit by reflexivity.
    destruct (IH (exec (manualWakeUp cfg) w)) as (Ha & Hc & Hq & Hm).
    rewrite Ha, Hc, Hq, Hm. simpl.
    rewrite requested_app.
    assert (H : requested (health_probe_request cfg)
                  [EvFetch (health_probe_request cfg)] = 1) by read_trace.
    rewrite H, <- app_assoc. simpl. repeat split; lia.
Qed.

(** X23.  A suspended cycle does not look at the state when it is
    resumed: when the fifth probe of a cycle in flight throws, the state
    becomes [error] with the terminal message whatever it was, [ready]
    included, as after another cycle has succeeded in the meantime. *)
Theorem stale_cycle_sets_error cfg i o p f t w :
  nth_error (cycles w) i = Some (AwaitProbe 4) ->
  throws o = true ->
  let w' := exec (resume_nth cfg i o p f t) w in
  serverStatus w' = error
  /\ connectionError w' = Some "Server wake failed after multiple attempts"
  /\ messages w' = messages w
  /\ nth_error (cycles w') i = Some (Returned false).
Proof.
  intros Hi Ht. cbv zeta. unfold exec, resume_nth. rewrite Hi.
  destruct (resume_throws cfg p f t 4 o w Ht) as (evs & Hres & _).
  change (S 4 <? maxRetries)%nat with false in Hres.
  unfold bind. rewrite Hres. simpl. repeat split.
  clear Hres. revert i Hi. generalize (cycles w).
  induction l as [|c l IH]; intros [|i] Hi; simpl in *; try discriminate;
    auto.
Qed.

(** [stale_cycle_sets_error] at two overlapping cycles: the manual one
    succeeds, then the fifth probe of the first one times out. *)
Lemma stale_cycle_sets_error_witness :
  let w :=
    exec (mount default_config ;;
          answer_probes default_config
            [timed_out; timed_out; timed_out; timed_out; timed_out;
             timed_out; timed_out; timed_out]
            timed_out timed_out "t" ;;
          manualWakeUp default_config ;;
          resume_nth default_config 1 (http 200 no_data) timed_out timed_out "t")
         initial in
  serverStatus w = ready
  /\ nth_error (cycles w) 0 = Some (AwaitProbe 4)
  /\ throws timed_out = true
  /\ serverStatus
       (exec (resume_nth default_config 0 timed_out timed_out timed_out "t") w)
     = error.
Proof.
  cbv zeta. split; [reflexivity|]. split; [reflexivity|].
  split; [reflexivity|].
  refine (proj1 (stale_cycle_sets_error default_config 0 timed_out timed_out
                   timed_out "t" _ _ eq_refl)).
  reflexivity.
Defined.

(** X24.  One keep-alive ping that fails, followed by a first probe
    that succeeds: the component is [ready] again with the session id it
    had, but the conversation is gone, replaced by the welcome message.
    The same cycle leaves no invocation in flight behind. *)
Theorem failed_ping_then_success_resets_chat cfg r e o p f t w :
  serverStatus r = ready ->
  succeeds o = true ->
  let w1 := exec (sendKeepAlive cfg r (Rejected e)) w in
  let w2 := exec (resume_nth cfg (List.length (cycles w)) o p f t) w1 in
  serverStatus w1 = checking
  /\ serverStatus w2 = ready
  /\ messages w2 = [welcome t]
  /\ sessionId w2 = sessionId w
  /\ wakeAttempts w2 = 0
  /\ cycles w2 = (cycles w ++ [Returned true])%list
  /\ cycles_in_flight w2 = cycles_in_flight w.
Proof.
  intros Hr Hs. cbv zeta.
  assert (H1 : serverStatus (exec (sendKeepAlive cfg r (Rejected e)) w)
               = checking
               /\ cycles (exec (sendKeepAlive cfg r (Rejected e)) w)
                  = (cycles w ++ [AwaitProbe 0])%list
               /\ sessionId (exec (sendKeepAlive cfg r (Rejected e)) w)
                  = sessionId w).
  { unfold exec, sendKeepAlive. rewrite Hr. simpl. auto. }
  remember (exec (sendKeepAlive cfg r (Rejected e)) w) as w1 eqn:Ew1.
  destruct H1 as (Hst & Hc & Hsid).
  assert (Hrep : forall (l : list Cycle) c c',
            replace_nth (List.length l) c' (l ++ [c]) = (l ++ [c'])%list).
  { induction l as [|a l IH]; intros c c'; simpl; [reflexivity|].
    rewrite IH. reflexivity. }
  assert (E2 : resume_nth cfg (List.length (cycles w)) o p f t w1
               = (Normal tt,
                  exec (setCycles
                          (replace_nth (List.length (cycles w)) (Returned true)))
                       (after_success t w1))).
  { unfold resume_nth. rewrite Hc.
    rewrite nth_error_app2 by lia. rewrite Nat.sub_diag. simpl nth_error.
    unfold bind. rewrite (resume_succeeds cfg p f t 0 o w1 Hs). reflexivity. }
  unfold exec at 1 2 3 4 5 6. rewrite E2. simpl.
  rewrite Hc, Hrep. repeat split; auto.
  unfold cycles_in_flight. simpl. rewrite Hc, Hrep, filter_app, length_app.
  simpl. lia.
Qed.

(** [failed_ping_then_success_resets_chat] at a conversation of three
    messages. *)
Lemma failed_ping_then_success_resets_chat_witness :
  let w := exec (sendMessage default_config (chatting "hi" (IdStr "abc123"))
                   (http 200 {| reply := Some "hello"; d_responseTime := None;
                                d_sessionId := IdUndefined; d_error := None |})
                   "t1" "t2")
                (chatting "hi" (IdStr "abc123")) in
  serverStatus w = ready
  /\ succeeds (http 200 no_data) = true
  /\ List.length (messages w) = 3
  /\ messages
       (exec (resume_nth default_config (List.length (cycles w))
                (http 200 no_data) timed_out timed_out "t3")
             (exec (sendKeepAlive default_config w timed_out) w))
     = [welcome "t3"].
Proof.
  cbv zeta. split; [reflexivity|]. split; [reflexivity|].
  split; [reflexivity|].
  refine (proj1 (proj2 (proj2 (failed_ping_then_success_resets_chat
            default_config _ _ (http 200 no_data) timed_out timed_out "t3" _
            _ eq_refl)))).
  reflexivity.
Defined.

(** * How an exchange is classified *)

(** X25.  The net effect of an exchange by the way the request settles.
    The backend counts as asleep (state [waking], the sleeping notice,
    a reconnection cycle) for a JSON answer with status 503 or 504 and
    for an error named [AbortError] or whose message contains
    "Failed to fetch".  A JSON answer with another status outside
    200-299 shows the error text of the body, or the default text when
    it has none; a 2xx JSON answer shows the reply.  A body that is not
    JSON, under any status, is handled as the [SyntaxError] it throws:
    the generic connection message, unless its text contains
    "Failed to fetch". *)
Theorem sendMessage_classifies cfg r o t_sent t_reply w :
  screen r = ChatScreen ->
  send_disabled r = false ->
  let w' := exec (sendMessage cfg r o t_sent t_reply) w in
  let asleep :=
    serverStatus w' = waking
    /\ messages w'
       = (messages w ++ [sent_message r t_sent; sleeping_notice t_reply])%list
    /\ cycles w' = (cycles w ++ [AwaitProbe 0])%list in
  let shown (m : Message) :=
    serverStatus w' = serverStatus w
    /\ messages w' = (messages w ++ [sent_message r t_sent; m])%list
    /\ cycles w' = cycles w in
  match o with
  | Rejected e =>
      if String.eqb (name e) "AbortError"
         || includes (message e) "Failed to fetch"
      then asleep else shown (connection_error t_reply)
  | Resolved {| status := st; body := NotJson msg |} =>
      if includes msg "Failed to fetch"
      then asleep else shown (connection_error t_reply)
  | Resolved {| status := st; body := JsonObj d |} =>
      if ok {| status := st; body := JsonObj d |} then
        shown {| sender := ai; text := reply d; timestamp := t_reply;
                 responseTime := d_responseTime d |}
      else if ((st =? 503) || (st =? 504))%Z then asleep
      else shown (backend_error (d_error d) t_reply)
  end.
Proof.
  intros Hscreen Henabled.
  destruct (exchange_guard r Hscreen Henabled) as (Hi & Hr & Hl).
  cbv zeta. open_exchange Hi Hr Hl.
  destruct o as [e|[st [msg|d]]]; simpl.
  - destruct (String.eqb (name e) "AbortError"
              || includes (message e) "Failed to fetch"); simpl;
      rewrite <- app_assoc; auto.
  - destruct (includes msg "Failed to fetch"); simpl;
      rewrite <- app_assoc; auto.
  - destruct (ok _); simpl.
    + destruct (truthy_id (d_sessionId d)); simpl;
        rewrite <- app_assoc; auto.
    + destruct ((st =? 503)%Z || (st =? 504)%Z); simpl;
        rewrite <- app_assoc; auto.
Qed.

(** [sendMessage_classifies] at an HTTP 504 with a JSON body. *)
Lemma sendMessage_classifies_witness :
  screen (chatting "hi" IdNull) = ChatScreen
  /\ send_disabled (chatting "hi" IdNull) = false
  /\ serverStatus (exec (sendMessage default_config (chatting "hi" IdNull)
                           (http 504 no_data) "t1" "t2")
                        (chatting "hi" IdNull))
     = waking.
Proof.
  split; [reflexivity|]. split; [reflexivity|].
  exact (proj1 (sendMessage_classifies default_config (chatting "hi" IdNull)
                  (http 504 no_data) "t1" "t2" (chatting "hi" IdNull)
                  eq_refl eq_refl)).
Defined.

(** * Awaits that never complete *)

Section Arrive.
Variable cfg : Config.

Lemma triggerWakeUp_resolved resp f f' w :
  triggerWakeUp cfg (Resolved resp) f w = triggerWakeUp cfg (Resolved resp) f' w.
Proof.
  unfold triggerWakeUp, try_catch, bind, fetch, settle. simpl.
  destruct (ok resp); reflexivity.
Qed.

Lemma loop_body_throws_both r o p f f' t w :
  throws o = true ->
  exists e,
    loop_body cfg r o p f t w = wake_catch cfg r p f e w
    /\ loop_body cfg r o p f' t w = wake_catch cfg r p f' e w.
Proof.
  intros H.
  destruct o as [e|[st [msg|d]]]; simpl in H; try discriminate.
  - exists e. split; reflexivity.
  - unfold ok in H; simpl in H. rewrite andb_true_r in H.
    eexists. unfold loop_body, try_catch, bind, settle, ret, json, ok, throw.
    cbn [status body]. rewrite H. split; reflexivity.
  - rewrite andb_false_r in H. discriminate.
Qed.

Local Opaque triggerWakeUp string_of_nat waitTime.

Lemma wake_catch_ignores_fallback r p f f' e w :
  (r =? 0)%nat && rejected p = false ->
  wake_catch cfg r p f e w = wake_catch cfg r p f' e w.
Proof.
  intros H. unfold wake_catch.
  destruct (r =? 0)%nat eqn:R; [|reflexivity].
  simpl in H. destruct p as [e0|resp]; [discriminate|].
  unfold bind, console_log, emit, setServerStatus. simpl.
  rewrite (triggerWakeUp_resolved resp f f'). reflexivity.
Qed.

(** Unless the probe throws at [retries = 0] with the primary request
    rejected, a resumption does not depend on the fallback. *)
Lemma resume_ignores_fallback r o p f f' t w :
  throws o && (r =? 0)%nat && rejected p = false ->
  resume cfg (AwaitProbe r) o p f t w = resume cfg (AwaitProbe r) o p f' t w.
Proof.
  intros H.
  destruct (probe_cases o) as [Hs|[Ht|Hn]].
  - rewrite !(resume_succeeds cfg p _ t r o w Hs). reflexivity.
  - rewrite Ht in H. simpl in H.
    destruct (loop_body_throws_both r o p f f' t w Ht) as (e & He & He').
    unfold resume, bind. rewrite He, He'.
    rewrite (wake_catch_ignores_fallback r p f f' e w H). reflexivity.
  - rewrite !(resume_not_ok_any cfg r o p _ t w Hn). reflexivity.
Qed.

Variable a : Arrivals.

(** Where every await the cycle comes to completes, the run is the one
    of the network in which everything settles. *)
Lemma drive_arrivals_agrees fuel : forall n c w,
  reachable_cycle c ->
  (forall i, (n <= i < n + (5 - retries_of c))%nat ->
     exists o, probe_arrives a i = Some o /\ not_ok o = false) ->
  (rejected (primary_arrives a) = true -> fallback_arrives a <> None) ->
  drive_arrivals cfg a fuel n c w = run_of (drive cfg (settled a) fuel n c w).
Proof.
  induction fuel as [|fuel IH]; intros n c w Hc Hp Hf.
  - destruct c; reflexivity.
  - destruct c as [r|r|v]; simpl in Hc; [| |contradiction].
    + unfold maxRetries in Hc. simpl retries_of in Hp.
      destruct (Hp n ltac:(lia)) as (o & Ho & Hno).
      cbn [drive_arrivals drive]. rewrite Ho.
      assert (Eo : probe (settled a) n = o) by (simpl; rewrite Ho; reflexivity).
      rewrite Eo. cbn [primary fallback now settled].
      assert (Hstep : forall f,
                (throws o && (r =? 0)%nat && rejected (primary_arrives a) = false
                 \/ fallback_arrives a = Some f) ->
                match resume cfg (AwaitProbe r) o (primary_arrives a) f (clock a) w with
                | (Normal c', w') => drive_arrivals cfg a fuel (S n) c' w'
                | (Throw e, w') => Finished (Throw e) w'
                end
                = run_of
                    match resume cfg (AwaitProbe r) o (primary_arrives a)
                            match fallback_arrives a with
                            | Some f0 => f0
                            | None => timed_out
                            end (clock a) w with
                    | (Normal c', w') => drive cfg (settled a) fuel (S n) c' w'
                    | (Throw e, w') => Some (Throw e, w')
                    end).
      { intros f Hcase.
        assert (E : resume cfg (AwaitProbe r) o (primary_arrives a) f (clock a) w
                    = resume cfg (AwaitProbe r) o (primary_arrives a)
                        match fallback_arrives a with
                        | Some f0 => f0
                        | None => timed_out
                        end (clock a) w).
        { destruct Hcase as [H|H].
          - apply resume_ignores_fallback. exact H.
          - rewrite H. reflexivity. }
        rewrite E. clear E.
        destruct (probe_cases o) as [Hs|[Ht|Hn]].
        - rewrite (resume_succeeds cfg _ _ _ r o w Hs).
          destruct fuel; reflexivity.
        - destruct (resume_throws cfg (primary_arrives a)
                      match fallback_arrives a with
                      | Some f0 => f0
                      | None => timed_out
                      end (clock a) r o w Ht) as (evs & Hres & _).
          rewrite Hres.
          destruct (S r <? maxRetries)%nat eqn:R5.
          + apply Nat.ltb_lt in R5. unfold maxRetries in R5.
            apply IH; [simpl; unfold maxRetries; lia| |exact Hf].
            simpl retries_of. intros i Hi. apply Hp. lia.
          + destruct fuel; reflexivity.
        - congruence. }
      destruct (throws o && (r =? 0)%nat && rejected (primary_arrives a)) eqn:Hc3.
      * apply andb_true_iff in Hc3. destruct Hc3 as [_ Hrej].
        destruct (fallback_arrives a) as [f|] eqn:Hfa;
          [|exfalso; apply (Hf Hrej); reflexivity].
        apply (Hstep f). right. reflexivity.
      * apply (Hstep (primary_arrives a)). left. reflexivity.
    + cbn [drive_arrivals drive]. cbn [primary fallback now settled].
      rewrite !(resume_delay cfg _ _ _ r _ w (proj2 Hc)).
      apply IH; [exact (proj2 Hc)| |exact Hf].
      simpl retries_of in *. exact Hp.
Qed.
End Arrive.

(** X3.  When each of the first five probes is answered, its body read
    where the code reads it, with anything but a status outside 200-299,
    and the fallback wake request settles in case the primary one is
    rejected, [wakeUpServer] returns within five probes: [true] with the
    state [ready], or [false] with the state [error] and the terminal
    message. *)
Theorem wakeUpServer_returns_within_budget cfg a w :
  (forall i, (i < 5)%nat ->
     exists o, probe_arrives a i = Some o /\ not_ok o = false) ->
  (rejected (primary_arrives a) = true -> fallback_arrives a <> None) ->
  exists b w' l,
    wakeUpServer_arrivals cfg a 9 w = Finished (Normal b) w'
    /\ ticks cfg (trace w') = (ticks cfg (trace w) ++ l)%list
    /\ (probe_count l <= 5)%nat
    /\ (b = true -> serverStatus w' = ready)
    /\ (b = false ->
        serverStatus w' = error
        /\ connectionError w'
           = Some "Server wake failed after multiple attempts").
Proof.
  intros Hp Hf.
  assert (Hok : forall i, (i < 5)%nat -> not_ok (probe (settled a) i) = false).
  { intros i Hi. destruct (Hp i Hi) as (o & Ho & Hn). simpl.
    rewrite Ho. exact Hn. }
  destruct (wakeUpServer_terminates cfg (settled a) w Hok)
    as (b & w' & l & Hrun & Ht & Hc & Htrue & Hfalse).
  exists b, w', l. split; [|auto].
  unfold wakeUpServer_arrivals. unfold wakeUpServer in Hrun.
  rewrite wakeUpServer_start_eq in *.
  rewrite (drive_arrivals_agrees cfg a 9 0 _ _);
    [rewrite Hrun; reflexivity | | | exact Hf].
  - simpl. unfold maxRetries. lia.
  - simpl retries_of. intros i Hi. apply Hp. lia.
Qed.

(** [wakeUpServer_returns_within_budget] at two timeouts followed by
    successes, the primary wake request answered and the fallback
    request, which is then not issued, never settling. *)
Lemma wakeUpServer_returns_within_budget_witness :
  let a :=
    {| probe_arrives := fun n => Some (nth n [timed_out; timed_out]
                                           (http 200 no_data));
       primary_arrives := http 200 no_data;
       fallback_arrives := None;
       clock := "t" |} in
  (forall i, (i < 5)%nat ->
     exists o, probe_arrives a i = Some o /\ not_ok o = false)
  /\ (rejected (primary_arrives a) = true -> fallback_arrives a <> None)
  /\ exists b w' l,
       wakeUpServer_arrivals default_config a 9 initial
       = Finished (Normal b) w'
       /\ ticks default_config (trace w')
          = (ticks default_config (trace initial) ++ l)%list
       /\ (probe_count l <= 5)%nat
       /\ (b = true -> serverStatus w' = ready)
       /\ (b = false ->
           serverStatus w' = error
           /\ connectionError w'
              = Some "Server wake failed after multiple attempts").
Proof.
  cbv zeta.
  assert (Hp : forall i, (i < 5)%nat ->
            exists o,
              probe_arrives
                {| probe_arrives := fun n => Some (nth n [timed_out; timed_out]
                                                       (http 200 no_data));
                   primary_arrives := http 200 no_data;
                   fallback_arrives := None;
                   clock := "t" |} i = Some o
              /\ not_ok o = false).
  { intros i _. eexists. split; [reflexivity|].
    destruct i as [|[|[|i]]]; reflexivity. }
  assert (Hf : rejected
                 (primary_arrives
                    {| probe_arrives := fun n => Some (nth n [timed_out; timed_out]
                                                           (http 200 no_data));
                       primary_arrives := http 200 no_data;
                       fallback_arrives := None;
                       clock := "t" |}) = true ->
               fallback_arrives
                 {| probe_arrives := fun n => Some (nth n [timed_out; timed_out]
                                                        (http 200 no_data));
                    primary_arrives := http 200 no_data;
                    fallback_arrives := None;
                    clock := "t" |} <> None)
    by (simpl; discriminate).
  split; [exact Hp|]. split; [exact Hf|].
  exact (wakeUpServer_returns_within_budget default_config _ initial Hp Hf).
Defined.

(** X26.  [wakeUpServer] never returns, so the state never becomes
    [ready] or [error] through it, when the body of a 2xx answer to its
    first probe is never read to the end, or when its first probe
    throws, the primary wake request is rejected and the fallback
    request, which has no timeout, stays pending. *)
Theorem wakeUpServer_waits_for_ever cfg a w :
  (probe_arrives a 0 = None
   \/ ((exists o, probe_arrives a 0 = Some o /\ throws o = true)
       /\ rejected (primary_arrives a) = true
       /\ fallback_arrives a = None)) ->
  forall fuel,
    wakeUpServer_arrivals cfg a (S fuel) w = Pending
    /\ (forall c w', wakeUpServer_arrivals cfg a fuel w <> Finished c w').
Proof.
  intros H.
  assert (Hs : forall fuel, wakeUpServer_arrivals cfg a (S fuel) w = Pending).
  { intros fuel. unfold wakeUpServer_arrivals.
    rewrite wakeUpServer_start_eq. cbn [drive_arrivals].
    destruct H as [H|((o & Ho & Ht) & Hr & Hf)].
    - rewrite H. reflexivity.
    - rewrite Ho, Ht, Hr, Hf. reflexivity. }
  intros fuel. split; [apply Hs|].
  intros c w'. destruct fuel as [|fuel].
  - unfold wakeUpServer_arrivals. rewrite wakeUpServer_start_eq.
    discriminate.
  - rewrite Hs. discriminate.
Qed.

(** [wakeUpServer_waits_for_ever] at a cold start: the first probe and
    the primary wake request time out and the fallback request stays
    pending. *)
Lemma wakeUpServer_waits_for_ever_witness :
  let a :=
    {| probe_arrives := fun _ => Some timed_out;
       primary_arrives := timed_out;
       fallback_arrives := None;
       clock := "t" |} in
  (probe_arrives a 0 = None
   \/ ((exists o, probe_arrives a 0 = Some o /\ throws o = true)
       /\ rejected (primary_arrives a) = true
       /\ fallback_arrives a = None))
  /\ wakeUpServer_arrivals default_config a 100 initial = Pending.
Proof.
  cbv zeta.
  assert (H : probe_arrives
                {| probe_arrives := fun _ => Some timed_out;
                   primary_arrives := timed_out;
                   fallback_arrives := None;
                   clock := "t" |} 0 = None
              \/ ((exists o,
                     probe_arrives
                       {| probe_arrives := fun _ => Some timed_out;
                          primary_arrives := timed_out;
                          fallback_arrives := None;
                          clock := "t" |} 0 = Some o
                     /\ throws o = true)
                  /\ rejected
                       (primary_arrives
                          {| probe_arrives := fun _ => Some timed_out;
                             primary_arrives := timed_out;
                             fallback_arrives := None;
                             clock := "t" |}) = true
                  /\ fallback_arrives
                       {| probe_arrives := fun _ => Some timed_out;
                          primary_arrives := timed_out;
                          fallback_arrives := None;
                          clock := "t" |} = None)).
  { right. split; [|split; reflexivity].
    exists timed_out. split; reflexivity. }
  split; [exact H|].
  exact (proj1 (wakeUpServer_waits_for_ever default_config _ initial H 99)).
Defined.
